(** * Dividend European option: the Greeks test of the test suite

    A shallow embedding of [DividendEuropeanOptionTest::testGreeks]
    (test-suite/dividendeuropeanoption.cpp).

    The test drives a pricing engine over a grid of market data and, at
    each grid point, compares the engine's analytic Greeks with
    finite-difference estimates obtained by bumping shared quotes and
    the global evaluation date.  The embedding keeps that shape:

    - [Real] is IEEE binary64 ([double]), as primitive floats, so every
      product, quotient and comparison of the test is the machine one;
    - [Date] is the serial number of a QuantLib date;
    - the three [std::map<std::string,Real>] are key-ordered association
      lists with the semantics of [operator[]];
    - the quotes, the evaluation date and the three maps form the
      mutable store threaded by a state-and-exception monad; an
      exception (thrown by a pricing call or by [BOOST_FAIL]) unwinds
      with the store as it was when thrown, and [teardown] resets the
      evaluation date on the way out of the test;
    - the pricing engine, the day counter, [relativeError] and the date
      arithmetic are not part of this file of the repository: they are
      the fields of [Externals]. *)

From Stdlib Require Import ZArith List String Bool Uint63 Floats Lia.
Import ListNotations.

Set Warnings "-inexact-float".

(** ** Numeric and date types *)

Definition Real : Type := float.
Definition Rate : Type := Real.
Definition Spread : Type := Real.
Definition Volatility : Type := Real.
Definition Time : Type := Real.
Definition Integer : Type := Z.

(** A [Date] is its serial number; [d + n] and [d - n] with an
    [Integer] move by days. *)
Definition Date : Type := Z.

(** [Date()], the null date. *)
Definition nullDate : Date := 0%Z.

(** ** std::map<std::string, Real> *)

Module StdMap.

Definition t : Type := list (string * Real).

(** [m[k] = v]: the entries stay ordered by key, a key occurs once. *)
Fixpoint assign (k : string) (v : Real) (m : t) : t :=
  match m with
  | [] => [(k, v)]
  | (k', v') :: m' =>
      match String.compare k k' with
      | Lt => (k, v) :: m
      | Eq => (k, v) :: m'
      | Gt => (k', v') :: assign k v m'
      end
  end.

Fixpoint find (k : string) (m : t) : option Real :=
  match m with
  | [] => None
  | (k', v') :: m' => if String.eqb k k' then Some v' else find k m'
  end.

(** Reading [m[k]]: a missing key is first inserted with the value
    [Real()], which is [0.0]. *)
Definition index (k : string) (m : t) : Real * t :=
  match find k m with
  | Some v => (v, m)
  | None => (0%float, assign k 0%float m)
  end.

(** The keys in iteration order, [begin()] to [end()]. *)
Definition keys (m : t) : list string := List.map fst m.

End StdMap.

(** ** Instruments *)

Module Option.
Inductive Type_ : Type := Call | Put.
End Option.

Record PlainVanillaPayoff : Type := mkPayoff {
  optionType : Option.Type_;
  strike : Real
}.

Record DividendVanillaOption : Type := mkOption {
  payoff : PlainVanillaPayoff;
  lastDate : Date;                 (* exercise->lastDate() *)
  dividendDates : list Date;
  dividends : list Real
}.

(** ** The mutable store *)

(** The four [SimpleQuote]s behind the process handles and the global
    [Settings::instance().evaluationDate()]. *)
Record MarketState : Type := mkMarket {
  spot : Real;
  qRate : Rate;
  rRate : Rate;
  vol : Volatility;
  evaluationDate : Date
}.

(** What the instrument can be asked for. *)
Inductive Query : Type := QNPV | QDelta | QGamma | QTheta | QRho | QVega.

(** One request to the instrument: what was asked, of which option,
    under which market data. *)
Record Pricing : Type := mkPricing {
  asked : Query;
  priced : DividendVanillaOption;
  under : MarketState
}.

(** The store of [testGreeks]: the market data, the three maps declared
    before the loops, and (ghost) the history of pricing requests, the
    most recent first. *)
Record TestState : Type := mkState {
  market : MarketState;
  calculated : StdMap.t;
  expected : StdMap.t;
  tolerance : StdMap.t;
  pricings : list Pricing
}.

(** The results an engine run leaves in the instrument. *)
Record Results : Type := mkResults {
  value_ : Real;
  delta_ : Real;
  gamma_ : Real;
  theta_ : Real;
  rho_ : Real;
  vega_ : Real
}.

(** The arguments of [REPORT_FAILURE], in the order of the message. *)
Record Failure : Type := mkFailure {
  f_optionType : Option.Type_;
  f_spot : Real;
  f_strike : Real;
  f_dividendYield : Rate;
  f_riskFreeRate : Rate;
  f_referenceDate : Date;
  f_maturity : Date;
  f_volatility : Volatility;
  f_greekName : string;
  f_expected : Real;
  f_calculated : Real;
  f_error : Real;
  f_tolerance : Real
}.

(** ** What the test takes from the rest of the library *)

Record Externals : Type := mkExternals {
  (** [AnalyticDividendEuropeanEngine] behind [option.NPV()] and the
      Greek accessors: the results for an option under the current
      market data, or [None] when the calculation throws. *)
  engine : DividendVanillaOption -> MarketState -> option Results;
  (** [dc.yearFraction(d1, d2)] for [dc = Settings::instance().dayCounter()]. *)
  yearFraction : Date -> Date -> Time;
  (** [relativeError(x1, x2, reference)] of the test utilities. *)
  relativeError : Real -> Real -> Real -> Real;
  (** [d + n*Months]. *)
  plusMonths : Date -> Integer -> Date;
  (** [Date::todaysDate()]. *)
  todaysDate : Date;
  (** [Settings::instance().dayCounterBase()]. *)
  dayCounterBase : Integer
}.

(** ** The monad of the test body *)

Inductive outcome (A : Type) : Type :=
| Normal (a : A)            (* the statement completed *)
| BoostFail (f : Failure)   (* BOOST_FAIL threw: the test case is over *)
| EngineError               (* a pricing call threw *)
| Diverges.                 (* a loop ran out of its iteration bound *)

Arguments Normal {A} a.
Arguments BoostFail {A} f.
Arguments EngineError {A}.
Arguments Diverges {A}.

Definition M (A : Type) : Type := TestState -> outcome A * TestState.

Definition ret {A : Type} (a : A) : M A := fun s => (Normal a, s).

Definition bind {A B : Type} (m : M A) (k : A -> M B) : M B :=
  fun s =>
    match m s with
    | (Normal a, s') => k a s'
    | (BoostFail f, s') => (BoostFail f, s')
    | (EngineError, s') => (EngineError, s')
    | (Diverges, s') => (Diverges, s')
    end.

Declare Scope test_scope.
Delimit Scope test_scope with test.
Notation "x <- m ;; k" := (bind m (fun x => k))
  (at level 61, m at next level, right associativity) : test_scope.
Notation "m ;; k" := (bind m (fun _ => k))
  (at level 61, right associativity) : test_scope.

(** A [for] loop over an array. *)
Fixpoint forM_ {A : Type} (l : list A) (body : A -> M unit) : M unit :=
  match l with
  | [] => ret tt
  | x :: l' => bind (body x) (fun _ => forM_ l' body)
  end.

(** [BOOST_FAIL(msg)] is Boost.Test's fatal check
    ([BOOST_REQUIRE_MESSAGE(false, msg)]): it logs the message and
    throws, which ends the test case.  (The non-fatal one is
    [BOOST_ERROR].)  Nothing inside the loops of [testGreeks] catches
    an exception, so it leaves all of them; the [try] block of
    [QL_TEST_BEGIN] is around the whole body. *)
Definition BOOST_FAIL {A : Type} (f : Failure) : M A :=
  fun s => (BoostFail f, s).

Definition diverge {A : Type} : M A := fun s => (Diverges, s).

(** *** Quotes and settings *)

(** The writes [spot->setValue(x)], [qRate->setValue(x)],
    [rRate->setValue(x)], [vol->setValue(x)] and
    [Settings::instance().setEvaluationDate(d)] as updates of the
    market data. *)
Definition setSpot (x : Real) (m : MarketState) : MarketState :=
  mkMarket x (qRate m) (rRate m) (vol m) (evaluationDate m).
Definition setDividendYield (x : Rate) (m : MarketState) : MarketState :=
  mkMarket (spot m) x (rRate m) (vol m) (evaluationDate m).
Definition setRiskFreeRate (x : Rate) (m : MarketState) : MarketState :=
  mkMarket (spot m) (qRate m) x (vol m) (evaluationDate m).
Definition setVolatility (x : Volatility) (m : MarketState) : MarketState :=
  mkMarket (spot m) (qRate m) (rRate m) x (evaluationDate m).
Definition setDate (d : Date) (m : MarketState) : MarketState :=
  mkMarket (spot m) (qRate m) (rRate m) (vol m) d.

Definition withMarket (g : MarketState -> MarketState) : M unit :=
  fun s => (Normal tt,
            mkState (g (market s)) (calculated s) (expected s)
                    (tolerance s) (pricings s)).

Definition spot_setValue (x : Real) : M unit := withMarket (setSpot x).
Definition qRate_setValue (x : Rate) : M unit := withMarket (setDividendYield x).
Definition rRate_setValue (x : Rate) : M unit := withMarket (setRiskFreeRate x).
Definition vol_setValue (x : Volatility) : M unit := withMarket (setVolatility x).
Definition setEvaluationDate (d : Date) : M unit := withMarket (setDate d).

Definition spot_value : M Real := fun s => (Normal (spot (market s)), s).

(** *** The three maps *)

Definition calculated_assign (k : string) (v : Real) : M unit :=
  fun s => (Normal tt,
            mkState (market s) (StdMap.assign k v (calculated s)) (expected s)
                    (tolerance s) (pricings s)).
Definition expected_assign (k : string) (v : Real) : M unit :=
  fun s => (Normal tt,
            mkState (market s) (calculated s) (StdMap.assign k v (expected s))
                    (tolerance s) (pricings s)).
Definition tolerance_assign (k : string) (v : Real) : M unit :=
  fun s => (Normal tt,
            mkState (market s) (calculated s) (expected s)
                    (StdMap.assign k v (tolerance s)) (pricings s)).

Definition calculated_index (k : string) : M Real :=
  fun s => let (v, m) := StdMap.index k (calculated s) in
           (Normal v, mkState (market s) m (expected s) (tolerance s) (pricings s)).
Definition expected_index (k : string) : M Real :=
  fun s => let (v, m) := StdMap.index k (expected s) in
           (Normal v, mkState (market s) (calculated s) m (tolerance s) (pricings s)).
Definition tolerance_index (k : string) : M Real :=
  fun s => let (v, m) := StdMap.index k (tolerance s) in
           (Normal v, mkState (market s) (calculated s) (expected s) m (pricings s)).

Definition calculated_keys : M (list string) :=
  fun s => (Normal (StdMap.keys (calculated s)), s).

(** ** The test *)

Section TestGreeks.

Context (E : Externals).

Local Open Scope test_scope.

(** *** The instrument *)

(** A request to the instrument prices the option under the market data
    of the moment (the instrument observes the quotes and the settings);
    the request is entered in the history before the engine runs. *)
Definition ask (q : Query) (pick : Results -> Real)
    (o : DividendVanillaOption) : M Real :=
  fun s =>
    let s' := mkState (market s) (calculated s) (expected s) (tolerance s)
                      (mkPricing q o (market s) :: pricings s) in
    match engine E o (market s) with
    | Some r => (Normal (pick r), s')
    | None => (EngineError, s')
    end.

Definition NPV : DividendVanillaOption -> M Real := ask QNPV value_.
Definition delta : DividendVanillaOption -> M Real := ask QDelta delta_.
Definition gamma : DividendVanillaOption -> M Real := ask QGamma gamma_.
Definition theta : DividendVanillaOption -> M Real := ask QTheta theta_.
Definition rho : DividendVanillaOption -> M Real := ask QRho rho_.
Definition vega : DividendVanillaOption -> M Real := ask QVega vega_.

(** *** REPORT_FAILURE *)

Definition REPORT_FAILURE (greekName : string) (o : DividendVanillaOption)
    (s_ : Real) (q r : Rate) (today : Date) (v : Volatility)
    (expct calcl error tol : Real) : M unit :=
  BOOST_FAIL
    (mkFailure (optionType (payoff o)) s_ (strike (payoff o)) q r today
               (lastDate o) v greekName expct calcl error tol).

(** *** The dividend schedule (lines 109-116)

    [for (Date d = today + 3*Months; d < exercise->lastDate(); d += 6*Months)].
    The loop is run with an iteration bound; [None] is a loop that has
    not ended within the bound. *)
Fixpoint dividendLoop (bound : nat) (d exDate : Date)
    : option (list Date * list Real) :=
  if (d <? exDate)%Z then
    match bound with
    | O => None
    | S bound' =>
        match dividendLoop bound' (plusMonths E d 6%Z) exDate with
        | Some (dates, amounts) => Some (d :: dates, 5.0%float :: amounts)
        | None => None
        end
    end
  else Some ([], []).

(** The bound is the number of days from today to the exercise date:
    enough whenever adding months moves a date forward. *)
Definition dividendSchedule (today exDate : Date)
    : option (list Date * list Real) :=
  dividendLoop (Z.to_nat (exDate - today)) (plusMonths E today 3%Z) exDate.

(** *** The probes (lines 151-188) *)

Local Open Scope float_scope.

(** perturb spot and get delta and gamma *)
Definition perturbSpot (o : DividendVanillaOption) (u : Real) : M unit :=
  let du := u * 1.0e-4 in
  spot_setValue (u + du) ;;
  value_p <- NPV o ;;
  delta_p <- delta o ;;
  spot_setValue (u - du) ;;
  value_m <- NPV o ;;
  delta_m <- delta o ;;
  spot_setValue u ;;
  expected_assign "delta" ((value_p - value_m) / (2 * du)) ;;
  expected_assign "gamma" ((delta_p - delta_m) / (2 * du)).

(** perturb risk-free rate and get rho *)
Definition perturbRate (o : DividendVanillaOption) (r : Rate) : M unit :=
  let dr := r * 1.0e-4 in
  rRate_setValue (r + dr) ;;
  value_p <- NPV o ;;
  rRate_setValue (r - dr) ;;
  value_m <- NPV o ;;
  rRate_setValue r ;;
  expected_assign "rho" ((value_p - value_m) / (2 * dr)).

(** perturb volatility and get vega *)
Definition perturbVol (o : DividendVanillaOption) (v : Volatility) : M unit :=
  let dv := v * 1.0e-4 in
  vol_setValue (v + dv) ;;
  value_p <- NPV o ;;
  vol_setValue (v - dv) ;;
  value_m <- NPV o ;;
  vol_setValue v ;;
  expected_assign "vega" ((value_p - value_m) / (2 * dv)).

(** perturb date and get theta *)
Definition perturbDate (o : DividendVanillaOption) (today : Date) : M unit :=
  let dT := yearFraction E (today - 1)%Z (today + 1)%Z in
  setEvaluationDate (today - 1)%Z ;;
  value_m <- NPV o ;;
  setEvaluationDate (today + 1)%Z ;;
  value_p <- NPV o ;;
  setEvaluationDate today ;;
  expected_assign "theta" ((value_p - value_m) / dT).

(** *** The comparison (lines 191-204) *)

(** The body of the loop over [calculated]. *)
Definition compareGreek (o : DividendVanillaOption) (u : Real) (q r : Rate)
    (today : Date) (v : Volatility) (greek : string) : M unit :=
  expct <- expected_index greek ;;
  calcl <- calculated_index greek ;;
  tol <- tolerance_index greek ;;
  let error := relativeError E expct calcl u in
  if tol <? error
  then REPORT_FAILURE greek o u q r today v expct calcl error tol
  else ret tt.

(** The iterator walks [calculated] from [begin()] to [end()]; the body
    reads [calculated] at a key it holds, so the walk is over the keys
    present when the loop starts. *)
Definition compare (o : DividendVanillaOption) (u : Real) (q r : Rate)
    (today : Date) (v : Volatility) : M unit :=
  greeks <- calculated_keys ;;
  forM_ greeks (compareGreek o u q r today v).

(** *** One grid point (lines 134-205) *)

Definition gridPoint (o : DividendVanillaOption) (today : Date)
    (u : Real) (q r : Rate) (v : Volatility) : M unit :=
  spot_setValue u ;;
  qRate_setValue q ;;
  rRate_setValue r ;;
  vol_setValue v ;;
  value <- NPV o ;;
  (x <- delta o ;; calculated_assign "delta" x) ;;
  (x <- gamma o ;; calculated_assign "gamma" x) ;;
  (x <- theta o ;; calculated_assign "theta" x) ;;
  (x <- rho o ;; calculated_assign "rho" x) ;;
  (x <- vega o ;; calculated_assign "vega" x) ;;
  s_ <- spot_value ;;
  if s_ * 1.0e-5 <? value then
    perturbSpot o u ;;
    perturbRate o r ;;
    perturbVol o v ;;
    perturbDate o today ;;
    compare o u q r today v
  else ret tt.

(** *** The grid (lines 82-88) *)

Definition types : list Option.Type_ := [Option.Call; Option.Put].
Definition strikes : list Real := [50.0; 99.5; 100.0; 100.5; 150.0].
Definition underlyings : list Real := [100.0].
Definition qRates : list Rate := [0.00; 0.10; 0.30].
Definition rRates : list Rate := [0.01; 0.05; 0.15].
Definition lengths : list Integer := [1%Z; 2%Z].
Definition vols : list Volatility := [0.05; 0.20; 0.70].

(** The loops over [l], [m], [n], [p] for one option (lines 130-209). *)
Definition marketLoops (o : DividendVanillaOption) (today : Date) : M unit :=
  forM_ underlyings (fun u =>
  forM_ qRates (fun q =>
  forM_ rRates (fun r =>
  forM_ vols (fun v =>
    gridPoint o today u q r v)))).

(** The body of the loop over [k] (lines 105-209). *)
Definition optionLoopBody (today : Date) (type : Option.Type_)
    (strike_ : Real) (length_ : Integer) : M unit :=
  let exDate := (today + length_ * dayCounterBase E)%Z in
  match dividendSchedule today exDate with
  | None => diverge
  | Some (dates, amounts) =>
      let o := mkOption (mkPayoff type strike_) exDate dates amounts in
      marketLoops o today
  end.

(** The statements between [QL_TEST_BEGIN] and [QL_TEST_TEARDOWN]
    (lines 75-212). *)
Definition testBody : M unit :=
  tolerance_assign "delta" 1.0e-5 ;;
  tolerance_assign "gamma" 1.0e-5 ;;
  tolerance_assign "theta" 1.0e-5 ;;
  tolerance_assign "rho" 1.0e-5 ;;
  tolerance_assign "vega" 1.0e-5 ;;
  let today := todaysDate E in
  setEvaluationDate today ;;
  forM_ types (fun type =>
  forM_ strikes (fun strike_ =>
  forM_ lengths (fun length_ =>
    optionLoopBody today type strike_ length_))).

(** [teardown()] (lines 63-65): the evaluation date becomes [Date()]. *)
Definition teardown : M unit := setEvaluationDate nullDate.

(** Modelled from the spec: the macros [QL_TEST_BEGIN] and
    [QL_TEST_TEARDOWN] of lines 73 and 214 are those of the test
    utilities (utilities.hpp is not among the sources): the body runs in
    a [try] block; [teardown()] is run when the body is left, at its end
    or by an exception, and the exception is passed on.  A body that
    does not end is followed by nothing. *)
Definition QL_TEST (body : M unit) : M unit :=
  fun s =>
    match body s with
    | (Normal _, s') => teardown s'
    | (BoostFail f, s') => (BoostFail f, snd (teardown s'))
    | (EngineError, s') => (EngineError, snd (teardown s'))
    | (Diverges, s') => (Diverges, s')
    end.

(** [DividendEuropeanOptionTest::testGreeks()] (lines 69-215). *)
Definition testGreeks : M unit := QL_TEST testBody.

End TestGreeks.

(** The store when [testGreeks] is entered: the maps are empty, the
    quotes are created with the value [0.0], no evaluation date is set. *)
Definition initialState : TestState :=
  mkState (mkMarket 0%float 0%float 0%float 0%float nullDate) [] [] [] [].

(** ** Reference descriptions

    What the claims about the test say, as plain functions and
    predicates; the theorems below relate them to the run of the code. *)

Local Open Scope float_scope.

(** The keys of [calculated] in the order of the iterator. *)
Definition greekNames : list string :=
  ["delta"; "gamma"; "rho"; "theta"; "vega"]%string.

(** [tolerance] once lines 76-80 have run. *)
Definition tolerances : StdMap.t :=
  [("delta", 1.0e-5); ("gamma", 1.0e-5); ("rho", 1.0e-5);
   ("theta", 1.0e-5); ("vega", 1.0e-5)]%string.

(** [(f(x+h) - f(x-h)) / (2h)]. *)
Definition centralDifference (f : Real -> Real) (x h : Real) : Real :=
  (f (x + h) - f (x - h)) / (2 * h).

(** The market data a grid point prices under: its base point and the
    eight perturbed points of the probes around it. *)
Definition gridPointMarkets (today : Date) (base : MarketState)
    : list MarketState :=
  let u := spot base in
  let r := rRate base in
  let v := vol base in
  [ base;
    setSpot (u + u * 1.0e-4) base;
    setSpot (u - u * 1.0e-4) base;
    setRiskFreeRate (r + r * 1.0e-4) base;
    setRiskFreeRate (r - r * 1.0e-4) base;
    setVolatility (v + v * 1.0e-4) base;
    setVolatility (v - v * 1.0e-4) base;
    setDate (today - 1)%Z base;
    setDate (today + 1)%Z base ].

(** The engine does not throw for the option [o] under the market data
    [ms], where its results are those of [eng]. *)
Definition pricedBy (E : Externals)
    (eng : DividendVanillaOption -> MarketState -> Results)
    (o : DividendVanillaOption) (ms : list MarketState) : Prop :=
  forall m, In m ms -> engine E o m = Some (eng o m).

(** The requests of lines 143-148, the most recent first. *)
Definition analyticRequests (o : DividendVanillaOption) (base : MarketState)
    : list Pricing :=
  List.map (fun q => mkPricing q o base)
           [QVega; QRho; QTheta; QGamma; QDelta; QNPV].

(** The requests of the four probes (lines 151-188), the most recent
    first. *)
Definition probeRequests (o : DividendVanillaOption) (today : Date)
    (base : MarketState) : list Pricing :=
  let u := spot base in
  let r := rRate base in
  let v := vol base in
  [ mkPricing QNPV o (setDate (today + 1)%Z base);
    mkPricing QNPV o (setDate (today - 1)%Z base);
    mkPricing QNPV o (setVolatility (v - v * 1.0e-4) base);
    mkPricing QNPV o (setVolatility (v + v * 1.0e-4) base);
    mkPricing QNPV o (setRiskFreeRate (r - r * 1.0e-4) base);
    mkPricing QNPV o (setRiskFreeRate (r + r * 1.0e-4) base);
    mkPricing QDelta o (setSpot (u - u * 1.0e-4) base);
    mkPricing QNPV o (setSpot (u - u * 1.0e-4) base);
    mkPricing QDelta o (setSpot (u + u * 1.0e-4) base);
    mkPricing QNPV o (setSpot (u + u * 1.0e-4) base) ].

(** The store once the analytic results of a grid point are in
    [calculated]. *)
Definition afterAnalytic
    (eng : DividendVanillaOption -> MarketState -> Results)
    (o : DividendVanillaOption) (base : MarketState) (s : TestState)
    : TestState :=
  let res := eng o base in
  mkState base
    (StdMap.assign "vega" (vega_ res)
      (StdMap.assign "rho" (rho_ res)
        (StdMap.assign "theta" (theta_ res)
          (StdMap.assign "gamma" (gamma_ res)
            (StdMap.assign "delta" (delta_ res) (calculated s))))))
    (expected s) (tolerance s)
    (analyticRequests o base ++ pricings s).

(** The five finite-difference estimates at [base], with the evaluation
    date moved around [today]. *)
Definition deltaEstimate (eng : DividendVanillaOption -> MarketState -> Results)
    (o : DividendVanillaOption) (base : MarketState) : Real :=
  centralDifference (fun x => value_ (eng o (setSpot x base)))
                    (spot base) (spot base * 1.0e-4).
Definition gammaEstimate (eng : DividendVanillaOption -> MarketState -> Results)
    (o : DividendVanillaOption) (base : MarketState) : Real :=
  centralDifference (fun x => delta_ (eng o (setSpot x base)))
                    (spot base) (spot base * 1.0e-4).
Definition rhoEstimate (eng : DividendVanillaOption -> MarketState -> Results)
    (o : DividendVanillaOption) (base : MarketState) : Real :=
  centralDifference (fun x => value_ (eng o (setRiskFreeRate x base)))
                    (rRate base) (rRate base * 1.0e-4).
Definition vegaEstimate (eng : DividendVanillaOption -> MarketState -> Results)
    (o : DividendVanillaOption) (base : MarketState) : Real :=
  centralDifference (fun x => value_ (eng o (setVolatility x base)))
                    (vol base) (vol base * 1.0e-4).
Definition thetaEstimate (E : Externals)
    (eng : DividendVanillaOption -> MarketState -> Results)
    (o : DividendVanillaOption) (today : Date) (base : MarketState) : Real :=
  (value_ (eng o (setDate (today + 1)%Z base))
   - value_ (eng o (setDate (today - 1)%Z base)))
  / yearFraction E (today - 1)%Z (today + 1)%Z.

(** The store once the four probes of a grid point have run. *)
Definition afterProbes (E : Externals)
    (eng : DividendVanillaOption -> MarketState -> Results)
    (o : DividendVanillaOption) (today : Date) (base : MarketState)
    (s : TestState) : TestState :=
  mkState (setDate today base) (calculated s)
    (StdMap.assign "theta" (thetaEstimate E eng o today base)
      (StdMap.assign "vega" (vegaEstimate eng o base)
        (StdMap.assign "rho" (rhoEstimate eng o base)
          (StdMap.assign "gamma" (gammaEstimate eng o base)
            (StdMap.assign "delta" (deltaEstimate eng o base) (expected s))))))
    (tolerance s)
    (probeRequests o today base ++ pricings s).

(** The five checks of a grid point in the order of the iterator: the
    name, the estimate ([expected]), the analytic result ([calculated]). *)
Definition checks (E : Externals)
    (eng : DividendVanillaOption -> MarketState -> Results)
    (o : DividendVanillaOption) (today : Date) (base : MarketState)
    : list (string * Real * Real) :=
  let res := eng o base in
  [ ("delta", deltaEstimate eng o base, delta_ res);
    ("gamma", gammaEstimate eng o base, gamma_ res);
    ("rho", rhoEstimate eng o base, rho_ res);
    ("theta", thetaEstimate E eng o today base, theta_ res);
    ("vega", vegaEstimate eng o base, vega_ res) ]%string.

(** A check is out of tolerance. *)
Definition exceeds (E : Externals) (u : Real) (c : string * Real * Real)
    : bool :=
  let '(_, expct, calcl) := c in
  1.0e-5 <? relativeError E expct calcl u.

(** The failure reported for a check. *)
Definition failureOf (E : Externals) (o : DividendVanillaOption)
    (today : Date) (base : MarketState) (c : string * Real * Real) : Failure :=
  let '(greek, expct, calcl) := c in
  mkFailure (optionType (payoff o)) (spot base) (strike (payoff o))
            (qRate base) (rRate base) today (lastDate o) (vol base)
            greek expct calcl (relativeError E expct calcl (spot base)) 1.0e-5.

(** A map that is still empty or holds the five Greeks. *)
Definition filled (m : StdMap.t) : Prop :=
  m = [] \/ StdMap.keys m = greekNames.

(** The stores the loops of [testGreeks] go through. *)
Definition sweeping (today : Date) (s : TestState) : Prop :=
  evaluationDate (market s) = today /\
  tolerance s = tolerances /\
  filled (calculated s) /\
  filled (expected s).

(** The grid points priced so far: [vega] is asked for once per grid
    point, at line 148. *)
Definition gridPointsPriced (s : TestState) : list Pricing :=
  List.filter (fun p => match asked p with QVega => true | _ => false end)
              (pricings s).

(** The dates the loop variable [d] goes through from [first], six
    months more each time. *)
Fixpoint nthDate (E : Externals) (first : Date) (i : nat) : Date :=
  match i with
  | O => first
  | S i' => nthDate E (plusMonths E first 6%Z) i'
  end.

(** The scheduled dates: [today + 3*Months], then every six months. *)
Definition scheduledDate (E : Externals) (today : Date) (i : nat) : Date :=
  nthDate E (plusMonths E today 3%Z) i.

(** [s'] has the market data and the history of [s], and every entry
    of the maps of [s]. *)
Definition keeps (s s' : TestState) : Prop :=
  market s' = market s /\
  pricings s' = pricings s /\
  (forall k x, StdMap.find k (calculated s) = Some x ->
               StdMap.find k (calculated s') = Some x) /\
  (forall k x, StdMap.find k (expected s) = Some x ->
               StdMap.find k (expected s') = Some x) /\
  (forall k x, StdMap.find k (tolerance s) = Some x ->
               StdMap.find k (tolerance s') = Some x).

(** The store [s'] and the failure [f] of a run that [BOOST_FAIL] ended:
    [s'] is the store of some grid point right after its probes, and [f]
    reports the first check of that grid point that is out of
    tolerance. *)
Definition failedAt (E : Externals)
    (eng : DividendVanillaOption -> MarketState -> Results)
    (today : Date) (f : Failure) (s' : TestState) : Prop :=
  exists o base s0 c,
    evaluationDate base = today /\
    s' = afterProbes E eng o today base (afterAnalytic eng o base s0) /\
    List.find (exceeds E (spot base)) (checks E eng o today base) = Some c /\
    f = failureOf E o today base c.

(** From a store in [I], the statement [m] completes in [Q] or is ended
    by [BOOST_FAIL] in [P]. *)
Definition triple (I : TestState -> Prop) (m : M unit)
    (Q : TestState -> Prop) (P : Failure -> TestState -> Prop) : Prop :=
  forall s, I s ->
    match m s with
    | (Normal _, s') => Q s'
    | (BoostFail f, s') => P f s'
    | (EngineError, _) => True
    | (Diverges, _) => True
    end.

(** The stores of the sweep in which [k] grid points have been priced. *)
Definition sweepingAfter (today : Date) (k : nat) (s : TestState) : Prop :=
  sweeping today s /\ List.length (gridPointsPriced s) = k.

(** The engine does not throw anywhere on the grid of [testGreeks]: for
    each option the loops build, at the base point and the perturbed
    points of each of its grid points. *)
Definition pricesTheGrid (E : Externals)
    (eng : DividendVanillaOption -> MarketState -> Results) : Prop :=
  forall type strike_ length_ dates amounts u q r v,
    In type types -> In strike_ strikes -> In length_ lengths ->
    In u underlyings -> In q qRates -> In r rRates -> In v vols ->
    let today := todaysDate E in
    let exDate := (today + length_ * dayCounterBase E)%Z in
    dividendSchedule E today exDate = Some (dates, amounts) ->
    pricedBy E eng (mkOption (mkPayoff type strike_) exDate dates amounts)
             (gridPointMarkets today (mkMarket u q r v today)).

(** ** Concrete collaborators, for examples *)

Module Example.

Definition daysToReal (n : Z) : Real :=
  if (n <? 0)%Z then - of_uint63 (Uint63.of_Z (- n))
  else of_uint63 (Uint63.of_Z n).

(** Actual/360. *)
Definition actual360 (d1 d2 : Date) : Time := daysToReal (d2 - d1) / 360.

(** Modelled from the spec: [relativeError] of the test utilities
    (utilities.hpp is not among the sources): the absolute difference
    over the scale, and the absolute difference alone when the scale is
    zero. *)
Definition relativeError (x1 x2 reference : Real) : Real :=
  if reference =? 0 then abs (x1 - x2) else abs (x1 - x2) / reference.

(** Months of thirty days. *)
Definition thirtyDayMonths (d : Date) (n : Integer) : Date := (d + 30 * n)%Z.

(** A smooth value function with its exact derivatives. *)
Definition smooth (o : DividendVanillaOption) (m : MarketState) : Results :=
  let t := actual360 (evaluationDate m) (lastDate o) in
  mkResults (0.005 * spot m * spot m + 10 * rRate m + 5 * vol m + t)
            (0.01 * spot m) 0.01 (- (1)) 10 5.

(** The same value with a wrong delta and a wrong gamma. *)
Definition wrongGreeks (o : DividendVanillaOption) (m : MarketState) : Results :=
  let res := smooth o m in
  mkResults (value_ res) 0 5 (theta_ res) (rho_ res) (vega_ res).

(** An option worth exactly [spot * 1.0e-5]. *)
Definition atThreshold (o : DividendVanillaOption) (m : MarketState) : Results :=
  mkResults (spot m * 1.0e-5) 1.0e-5 0 0 0 0.

(** An engine that throws when the spot is above 100. *)
Definition fragile (o : DividendVanillaOption) (m : MarketState)
    : option Results :=
  if 100 <? spot m then None else Some (smooth o m).

(** An engine with the preconditions of the analytic engine: it throws
    unless the volatility and the strike are positive and the exercise
    date is after the evaluation date. *)
Definition checked (eng : DividendVanillaOption -> MarketState -> Results)
    (o : DividendVanillaOption) (m : MarketState) : option Results :=
  if (0 <? vol m) && (0 <? strike (payoff o))
     && (evaluationDate m <? lastDate o)%Z
  then Some (eng o m)
  else None.

Definition total (eng : DividendVanillaOption -> MarketState -> Results)
    (o : DividendVanillaOption) (m : MarketState) : option Results :=
  Some (eng o m).

Definition env (eng : DividendVanillaOption -> MarketState -> option Results)
    : Externals :=
  mkExternals eng actual360 relativeError thirtyDayMonths 38000%Z 360%Z.

(** A one-year call struck at 100 with the two dividends of the loop. *)
Definition call100 : DividendVanillaOption :=
  mkOption (mkPayoff Option.Call 100) 38360%Z [38090%Z; 38270%Z] [5; 5].

(** A store inside the sweep, before any grid point. *)
Definition fresh : TestState :=
  mkState (mkMarket 0 0 0 0 38000%Z) [] [] tolerances [].

End Example.

(** ** Further reference descriptions *)

(** A request of the grid point of [o] at [base]: it is for [o], under
    the base point or one of the eight perturbed points. *)
Definition ofGridPoint (o : DividendVanillaOption) (today : Date)
    (base : MarketState) (p : Pricing) : Prop :=
  priced p = o /\ In (under p) (gridPointMarkets today base).

(** The store [s'] is [s] with at most sixteen requests of the grid
    point more in the history, and with the dividend yield of the base
    point. *)
Definition within (o : DividendVanillaOption) (today : Date)
    (base : MarketState) (s s' : TestState) : Prop :=
  (forall p, In p (pricings s') ->
     In p (pricings s) \/ ofGridPoint o today base p) /\
  (List.length (pricings s') <= 16 + List.length (pricings s))%nat /\
  qRate (market s') = qRate base.

(** The store is the one an engine exception left: the last request is
    the one that threw, and the market data are those it was made
    under. *)
Definition thrownAt (E : Externals) (s' : TestState) : Prop :=
  exists p rest,
    pricings s' = p :: rest /\
    engine E (priced p) (under p) = None /\
    market s' = under p.

(** The three ways a grid point can end: an engine exception, the
    guard skipping the comparison, or the comparison. *)
Definition gridPointEnds (E : Externals) (o : DividendVanillaOption)
    (today : Date) (u : Real) (q r : Rate) (v : Volatility) (s : TestState)
    (run : outcome unit * TestState) : Prop :=
  let base := mkMarket u q r v (evaluationDate (market s)) in
  (exists s', run = (EngineError, s') /\ within o today base s s' /\
              thrownAt E s') \/
  (exists s', run = (Normal tt, s') /\ within o today base s s') \/
  (exists s', run = compare E o u q r today v s' /\ within o today base s s').

(** The grid points priced so far, the oldest first: the option and the
    base point of each. *)
Definition visited (s : TestState)
    : list (DividendVanillaOption * MarketState) :=
  List.rev (List.map (fun p => (priced p, under p)) (gridPointsPriced s)).

(** The grid points of one option, in the order of the loops over [l],
    [m], [n], [p]. *)
Definition marketGrid (o : DividendVanillaOption) (today : Date)
    : list (DividendVanillaOption * MarketState) :=
  List.flat_map (fun u =>
  List.flat_map (fun q =>
  List.flat_map (fun r =>
  List.map (fun v => (o, mkMarket u q r v today)) vols) rRates) qRates)
  underlyings.

(** The grid points of one (type, strike, maturity) triple. *)
Definition optionGrid (E : Externals) (today : Date) (type : Option.Type_)
    (strike_ : Real) (length_ : Integer)
    : list (DividendVanillaOption * MarketState) :=
  let exDate := (today + length_ * dayCounterBase E)%Z in
  match dividendSchedule E today exDate with
  | Some (dates, amounts) =>
      marketGrid (mkOption (mkPayoff type strike_) exDate dates amounts) today
  | None => []
  end.

(** The grid of [testGreeks], in the order of its seven loops. *)
Definition testGrid (E : Externals)
    : list (DividendVanillaOption * MarketState) :=
  List.flat_map (fun type =>
  List.flat_map (fun strike_ =>
  List.flat_map (fun length_ =>
    optionGrid E (todaysDate E) type strike_ length_) lengths) strikes) types.

(** The failure [f] names the grid point [pt]. *)
Definition reportedAt (f : Failure)
    (pt : DividendVanillaOption * MarketState) : Prop :=
  f_optionType f = optionType (payoff (fst pt)) /\
  f_strike f = strike (payoff (fst pt)) /\
  f_maturity f = lastDate (fst pt) /\
  f_spot f = spot (snd pt) /\
  f_dividendYield f = qRate (snd pt) /\
  f_riskFreeRate f = rRate (snd pt) /\
  f_volatility f = vol (snd pt) /\
  f_referenceDate f = evaluationDate (snd pt).

(** The stores of the sweep that have priced the grid points [done], in
    this order, with six to sixteen requests each. *)
Definition sweepingThrough (today : Date)
    (done : list (DividendVanillaOption * MarketState)) (s : TestState)
    : Prop :=
  sweeping today s /\
  visited s = done /\
  (6 * List.length done <= List.length (pricings s)
   <= 16 * List.length done)%nat.

(** The store of a run that a failure ended on the way from [done]
    through [todo]: it has priced [done] and then [todo] up to the grid
    point the failure names. *)
Definition stoppedIn (done todo : list (DividendVanillaOption * MarketState))
    (f : Failure) (s' : TestState) : Prop :=
  exists pre pt post,
    todo = pre ++ pt :: post /\
    visited s' = done ++ pre ++ [pt] /\
    reportedAt f pt.

(** From a store in [I], the statement [m] completes in [Q] or is ended
    by [BOOST_FAIL] in [P]; it does not throw from the engine and its
    loops end. *)
Definition strictTriple (I : TestState -> Prop) (m : M unit)
    (Q : TestState -> Prop) (P : Failure -> TestState -> Prop) : Prop :=
  forall s, I s ->
    match m s with
    | (Normal _, s') => Q s'
    | (BoostFail f, s') => P f s'
    | (EngineError, _) => False
    | (Diverges, _) => False
    end.

(** The failure [f] reported from the store [s'] for the grid point
    [(u, q, r, v)] of [o] is faithful: it carries the arguments of the
    grid point, the expected, calculated and tolerance values are those
    the three maps hold for its Greek, the error is their relative
    error with [u] as reference, and the error is above the tolerance. *)
Definition faithfulReport (E : Externals) (o : DividendVanillaOption)
    (u : Real) (q r : Rate) (today : Date) (v : Volatility)
    (f : Failure) (s' : TestState) : Prop :=
  f_optionType f = optionType (payoff o) /\
  f_strike f = strike (payoff o) /\
  f_maturity f = lastDate o /\
  f_spot f = u /\
  f_dividendYield f = q /\
  f_riskFreeRate f = r /\
  f_referenceDate f = today /\
  f_volatility f = v /\
  StdMap.find (f_greekName f) (expected s') = Some (f_expected f) /\
  StdMap.find (f_greekName f) (calculated s') = Some (f_calculated f) /\
  StdMap.find (f_greekName f) (tolerance s') = Some (f_tolerance f) /\
  f_error f = relativeError E (f_expected f) (f_calculated f) u /\
  (f_tolerance f <? f_error f) = true.

(** The grid point [pt] has a Greek out of tolerance: its base value
    passes the guard and one of its five checks is out of tolerance. *)
Definition violates (E : Externals)
    (eng : DividendVanillaOption -> MarketState -> Results)
    (today : Date) (pt : DividendVanillaOption * MarketState) : bool :=
  (spot (snd pt) * 1.0e-5 <? value_ (eng (fst pt) (snd pt)))
  && List.existsb (exceeds E (spot (snd pt)))
                  (checks E eng (fst pt) today (snd pt)).

(** The stores of the sweep that have priced the grid points [done], in
    this order, none of them with a Greek out of tolerance. *)
Definition cleanThrough (E : Externals)
    (eng : DividendVanillaOption -> MarketState -> Results)
    (today : Date) (done : list (DividendVanillaOption * MarketState))
    (s : TestState) : Prop :=
  sweepingThrough today done s /\
  forall pt, In pt done -> violates E eng today pt = false.

(** The store and the failure of a run that has priced [done] and then
    [todo] up to its first grid point with a Greek out of tolerance, and
    reported the first such Greek of that grid point. *)
Definition firstViolation (E : Externals)
    (eng : DividendVanillaOption -> MarketState -> Results)
    (today : Date) (done todo : list (DividendVanillaOption * MarketState))
    (f : Failure) (s' : TestState) : Prop :=
  exists pre pt post c,
    todo = pre ++ pt :: post /\
    (forall p, In p pre -> violates E eng today p = false) /\
    violates E eng today pt = true /\
    List.find (exceeds E (spot (snd pt)))
              (checks E eng (fst pt) today (snd pt)) = Some c /\
    f = failureOf E (fst pt) today (snd pt) c /\
    visited s' = done ++ pre ++ [pt].

(** Engines that return not-a-number. *)
Module Broken.

(** The value is not a number. *)
Definition nanValue (o : DividendVanillaOption) (m : MarketState) : Results :=
  mkResults nan 0 0 0 0 0.

(** The value is that of [Example.smooth]; the Greeks are not numbers. *)
Definition nanGreeks (o : DividendVanillaOption) (m : MarketState) : Results :=
  mkResults (value_ (Example.smooth o m)) nan nan nan nan nan.

End Broken.

(** A store of the sweep after a first grid point has been compared. *)
Definition afterFirstGridPoint : TestState :=
  snd (gridPoint (Example.env (Example.total Example.smooth))
                 Example.call100 38000%Z 100 0.3 0.15 0.7 Example.fresh).

(** * Properties *)

(** ** The maps *)

Lemma string_compare_refl (k : string) : String.compare k k = Eq.
Proof.
  pose proof (String.compare_antisym k k) as H.
  destruct (String.compare k k); simpl in H; congruence.
Qed.

Lemma string_eqb_compare (k k' : string) :
  String.eqb k k' = match String.compare k k' with Eq => true | _ => false end.
Proof.
  destruct (String.eqb_spec k k') as [->|Hne].
  - now rewrite string_compare_refl.
  - destruct (String.compare k k') eqn:Hc; try reflexivity.
    apply String.compare_eq_iff in Hc. contradiction.
Qed.

Lemma find_assign_same (k : string) (v : Real) (m : StdMap.t) :
  StdMap.find k (StdMap.assign k v m) = Some v.
Proof.
  induction m as [|[k' v'] m IH]; simpl.
  - now rewrite String.eqb_refl.
  - destruct (String.compare k k') eqn:Hc; simpl.
    + now rewrite String.eqb_refl.
    + now rewrite String.eqb_refl.
    + rewrite string_eqb_compare, Hc. exact IH.
Qed.

Lemma find_assign_other (k k0 : string) (v : Real) (m : StdMap.t) :
  k <> k0 -> StdMap.find k (StdMap.assign k0 v m) = StdMap.find k m.
Proof.
  intros Hne. apply String.eqb_neq in Hne.
  induction m as [|[k' v'] m IH]; simpl.
  - now rewrite Hne.
  - destruct (String.compare k0 k') eqn:Hc; simpl.
    + apply String.compare_eq_iff in Hc. subst k'. now rewrite Hne.
    + now rewrite Hne.
    + now rewrite IH.
Qed.

(** Reading a key leaves every entry of the map as it was. *)
Lemma index_keeps (k k0 : string) (x : Real) (m : StdMap.t) :
  StdMap.find k0 m = Some x ->
  StdMap.find k0 (snd (StdMap.index k m)) = Some x.
Proof.
  intros Hfind. unfold StdMap.index.
  destruct (StdMap.find k m) eqn:Hk; simpl; [exact Hfind|].
  rewrite find_assign_other; [exact Hfind|].
  intros ->. congruence.
Qed.

(** The five assignments of lines 144-148 leave [calculated] with the
    five Greeks in key order. *)
Lemma calculated_filled (c : StdMap.t) (d g t r v : Real) :
  filled c ->
  StdMap.assign "vega" v (StdMap.assign "rho" r (StdMap.assign "theta" t
    (StdMap.assign "gamma" g (StdMap.assign "delta" d c)))) =
  [("delta", d); ("gamma", g); ("rho", r); ("theta", t); ("vega", v)]%string.
Proof.
  intros [->|Hkeys]; [reflexivity|].
  destruct c as [|[k1 x1] [|[k2 x2] [|[k3 x3] [|[k4 x4] [|[k5 x5] [|? ?]]]]]];
    try discriminate Hkeys.
  unfold greekNames in Hkeys; simpl in Hkeys.
  injection Hkeys as -> -> -> -> ->. reflexivity.
Qed.

(** The five assignments of the probes leave [expected] with the five
    Greeks in key order. *)
Lemma expected_filled (e : StdMap.t) (d g r v t : Real) :
  filled e ->
  StdMap.assign "theta" t (StdMap.assign "vega" v (StdMap.assign "rho" r
    (StdMap.assign "gamma" g (StdMap.assign "delta" d e)))) =
  [("delta", d); ("gamma", g); ("rho", r); ("theta", t); ("vega", v)]%string.
Proof.
  intros [->|Hkeys]; [reflexivity|].
  destruct e as [|[k1 x1] [|[k2 x2] [|[k3 x3] [|[k4 x4] [|[k5 x5] [|? ?]]]]]];
    try discriminate Hkeys.
  unfold greekNames in Hkeys; simpl in Hkeys.
  injection Hkeys as -> -> -> -> ->. reflexivity.
Qed.

(** ** The monad *)

Lemma bind_assoc (A B C : Type) (m : M A) (f : A -> M B) (g : B -> M C)
    (s : TestState) :
  bind (bind m f) g s = bind m (fun x => bind (f x) g) s.
Proof. unfold bind. destruct (m s) as [[a| | |] s']; reflexivity. Qed.

Lemma bind_withMarket (B : Type) (g : MarketState -> MarketState)
    (k : unit -> M B) (s : TestState) :
  bind (withMarket g) k s =
  k tt (mkState (g (market s)) (calculated s) (expected s) (tolerance s)
                (pricings s)).
Proof. reflexivity. Qed.

Lemma bind_calculated_assign (B : Type) (key : string) (x : Real)
    (k : unit -> M B) (s : TestState) :
  bind (calculated_assign key x) k s =
  k tt (mkState (market s) (StdMap.assign key x (calculated s)) (expected s)
                (tolerance s) (pricings s)).
Proof. reflexivity. Qed.

Lemma bind_expected_assign (B : Type) (key : string) (x : Real)
    (k : unit -> M B) (s : TestState) :
  bind (expected_assign key x) k s =
  k tt (mkState (market s) (calculated s) (StdMap.assign key x (expected s))
                (tolerance s) (pricings s)).
Proof. reflexivity. Qed.

Lemma run_expected_assign (key : string) (x : Real) (s : TestState) :
  expected_assign key x s =
  (Normal tt, mkState (market s) (calculated s)
                      (StdMap.assign key x (expected s))
                      (tolerance s) (pricings s)).
Proof. reflexivity. Qed.

Lemma bind_spot_value (B : Type) (k : Real -> M B) (s : TestState) :
  bind spot_value k s = k (spot (market s)) s.
Proof. reflexivity. Qed.

(** A statement that does not complete ends the loop it is in. *)
Lemma forM__cons (A : Type) (x : A) (l : list A) (body : A -> M unit)
    (s : TestState) :
  forM_ (x :: l) body s =
  match body x s with
  | (Normal _, s') => forM_ l body s'
  | (BoostFail f, s') => (BoostFail f, s')
  | (EngineError, s') => (EngineError, s')
  | (Diverges, s') => (Diverges, s')
  end.
Proof. reflexivity. Qed.

(** A pricing request, whatever the engine does. *)
Lemma bind_ask (E : Externals) (B : Type) (q : Query) (pick : Results -> Real)
    (o : DividendVanillaOption) (k : Real -> M B) (s : TestState) :
  bind (ask E q pick o) k s =
  let s' := mkState (market s) (calculated s) (expected s) (tolerance s)
                    (mkPricing q o (market s) :: pricings s) in
  match engine E o (market s) with
  | Some r => k (pick r) s'
  | None => (EngineError, s')
  end.
Proof.
  unfold bind, ask. destruct (engine E o (market s)); reflexivity.
Qed.

Ltac unfold_requests :=
  unfold NPV, delta, gamma, theta, rho, vega,
         spot_setValue, qRate_setValue, rRate_setValue, vol_setValue,
         setEvaluationDate.

Ltac simpl_store :=
  cbn [market calculated expected tolerance pricings
       spot qRate rRate vol evaluationDate
       setSpot setDividendYield setRiskFreeRate setVolatility setDate
       value_ delta_ gamma_ theta_ rho_ vega_].

(** Symbolic execution of straight-line code, one statement at a time. *)
Ltac run_with ask_rule :=
  repeat (first
    [ rewrite bind_assoc
    | ask_rule
    | rewrite bind_withMarket
    | rewrite bind_calculated_assign
    | rewrite bind_expected_assign
    | rewrite run_expected_assign
    | rewrite bind_spot_value ];
    simpl_store).

(** ** A grid point the engine prices *)

(** A pricing request under market data the engine prices. *)
Ltac ask_priced H :=
  rewrite bind_ask; cbv zeta; simpl_store;
  rewrite H
    by (unfold gridPointMarkets; simpl_store; cbn [In];
        repeat first [left; reflexivity | right]).

(** The run of a grid point: the analytic results first, then the guard,
    then the probes and the comparison. *)
Lemma gridPoint_run (E : Externals)
    (eng : DividendVanillaOption -> MarketState -> Results)
    (o : DividendVanillaOption) (today : Date)
    (u : Real) (q r : Rate) (v : Volatility) (s : TestState) :
  let base := mkMarket u q r v (evaluationDate (market s)) in
  pricedBy E eng o (gridPointMarkets today base) ->
  gridPoint E o today u q r v s =
  if u * 1.0e-5 <? value_ (eng o base)
  then compare E o u q r today v
         (afterProbes E eng o today base (afterAnalytic eng o base s))
  else (Normal tt, afterAnalytic eng o base s).
Proof.
  cbv zeta. intros Hpriced.
  unfold gridPoint. unfold_requests.
  run_with ltac:(ask_priced Hpriced).
  destruct (u * 1.0e-5 <? _); [|reflexivity].
  unfold perturbSpot, perturbRate, perturbVol, perturbDate. unfold_requests.
  run_with ltac:(ask_priced Hpriced).
  reflexivity.
Qed.

(** ** The comparison *)

Lemma keeps_refl (s : TestState) : keeps s s.
Proof. unfold keeps; auto. Qed.

Lemma keeps_trans (s1 s2 s3 : TestState) :
  keeps s1 s2 -> keeps s2 s3 -> keeps s1 s3.
Proof.
  unfold keeps. intros (Hm & Hp & Hc & He & Ht) (Hm' & Hp' & Hc' & He' & Ht').
  repeat split; try congruence; auto.
Qed.

(** A check reads the three maps and writes nothing else. *)
Lemma compareGreek_keeps (E : Externals) (o : DividendVanillaOption)
    (u : Real) (q r : Rate) (today : Date) (v : Volatility) (greek : string)
    (s : TestState) :
  keeps s (snd (compareGreek E o u q r today v greek s)).
Proof.
  unfold compareGreek, expected_index, calculated_index, tolerance_index,
         bind, REPORT_FAILURE, BOOST_FAIL, ret.
  pose proof (fun k0 x => index_keeps greek k0 x (expected s)) as He.
  pose proof (fun k0 x => index_keeps greek k0 x (calculated s)) as Hc.
  pose proof (fun k0 x => index_keeps greek k0 x (tolerance s)) as Ht.
  destruct (StdMap.index greek (expected s)) as [expct e']; simpl in *.
  destruct (StdMap.index greek (calculated s)) as [calcl c']; simpl in *.
  destruct (StdMap.index greek (tolerance s)) as [tol t']; simpl in *.
  destruct (tol <? relativeError E expct calcl u);
    unfold keeps; simpl; repeat split; auto.
Qed.

Lemma forM__keeps (A : Type) (body : A -> M unit) (l : list A) :
  (forall x s, keeps s (snd (body x s))) ->
  forall s, keeps s (snd (forM_ l body s)).
Proof.
  intros Hbody. induction l as [|x l IH]; intros s.
  - apply keeps_refl.
  - rewrite forM__cons. specialize (Hbody x s).
    destruct (body x s) as [[[]| | |] s']; simpl in *; auto.
    eapply keeps_trans; [exact Hbody|apply IH].
Qed.

Lemma compare_keeps (E : Externals) (o : DividendVanillaOption)
    (u : Real) (q r : Rate) (today : Date) (v : Volatility) (s : TestState) :
  keeps s (snd (compare E o u q r today v s)).
Proof.
  unfold compare, calculated_keys, bind.
  apply forM__keeps. intros x s0. apply compareGreek_keeps.
Qed.

(** With the five Greeks in the three maps, the comparison reports the
    first check in key order that is out of tolerance, and changes
    nothing. *)
Lemma compare_filled (E : Externals) (o : DividendVanillaOption)
    (u : Real) (q r : Rate) (today : Date) (v : Volatility)
    (m : MarketState) (p : list Pricing)
    (c1 c2 c3 c4 c5 e1 e2 e3 e4 e5 : Real) :
  let s := mkState m
             [("delta", c1); ("gamma", c2); ("rho", c3); ("theta", c4);
              ("vega", c5)]%string
             [("delta", e1); ("gamma", e2); ("rho", e3); ("theta", e4);
              ("vega", e5)]%string
             tolerances p in
  compare E o u q r today v s =
  (match List.find (exceeds E u)
           [("delta", e1, c1); ("gamma", e2, c2); ("rho", e3, c3);
            ("theta", e4, c4); ("vega", e5, c5)]%string with
   | Some c => BoostFail (failureOf E o today (mkMarket u q r v today) c)
   | None => Normal tt
   end, s).
Proof.
  cbv zeta. unfold compare, calculated_keys, bind at 1.
  cbn [StdMap.keys List.map fst calculated].
  unfold List.find, exceeds, failureOf.
  destruct (1.0e-5 <? relativeError E e1 c1 u) eqn:H1;
  [|destruct (1.0e-5 <? relativeError E e2 c2 u) eqn:H2;
    [|destruct (1.0e-5 <? relativeError E e3 c3 u) eqn:H3;
      [|destruct (1.0e-5 <? relativeError E e4 c4 u) eqn:H4;
        [|destruct (1.0e-5 <? relativeError E e5 c5 u) eqn:H5]]]];
  do 5 (try rewrite forM__cons;
        try unfold compareGreek at 1;
        unfold expected_index, calculated_index, tolerance_index, bind;
        cbn;
        rewrite ?H1, ?H2, ?H3, ?H4, ?H5;
        cbn);
  reflexivity.
Qed.

(** ** The outcome of a grid point *)

(** The estimates the probes leave in [expected]. *)
Lemma afterProbes_expected (E : Externals)
    (eng : DividendVanillaOption -> MarketState -> Results)
    (o : DividendVanillaOption) (today : Date)
    (base : MarketState) (s : TestState) :
  let e := expected (afterProbes E eng o today base s) in
  StdMap.find "delta" e = Some (deltaEstimate eng o base) /\
  StdMap.find "gamma" e = Some (gammaEstimate eng o base) /\
  StdMap.find "rho" e = Some (rhoEstimate eng o base) /\
  StdMap.find "vega" e = Some (vegaEstimate eng o base) /\
  StdMap.find "theta" e = Some (thetaEstimate E eng o today base).
Proof.
  cbv zeta. unfold afterProbes. cbn [expected].
  repeat split;
    repeat (rewrite find_assign_other by discriminate);
    apply find_assign_same.
Qed.

(** The analytic results in [calculated]. *)
Lemma afterAnalytic_calculated
    (eng : DividendVanillaOption -> MarketState -> Results)
    (o : DividendVanillaOption) (base : MarketState) (s : TestState) :
  let c := calculated (afterAnalytic eng o base s) in
  StdMap.find "delta" c = Some (delta_ (eng o base)) /\
  StdMap.find "gamma" c = Some (gamma_ (eng o base)) /\
  StdMap.find "theta" c = Some (theta_ (eng o base)) /\
  StdMap.find "rho" c = Some (rho_ (eng o base)) /\
  StdMap.find "vega" c = Some (vega_ (eng o base)).
Proof.
  cbv zeta. unfold afterAnalytic. cbn [calculated].
  repeat split;
    repeat (rewrite find_assign_other by discriminate);
    apply find_assign_same.
Qed.

Section GridPoint.

Context (E : Externals)
        (eng : DividendVanillaOption -> MarketState -> Results)
        (o : DividendVanillaOption) (today : Date)
        (u : Real) (q r : Rate) (v : Volatility).

(** A grid point that is not skipped ends in a store that keeps
    everything the probes left. *)
Lemma gridPoint_keeps (s : TestState) :
  let base := mkMarket u q r v (evaluationDate (market s)) in
  pricedBy E eng o (gridPointMarkets today base) ->
  (u * 1.0e-5 <? value_ (eng o base)) = true ->
  keeps (afterProbes E eng o today base (afterAnalytic eng o base s))
        (snd (gridPoint E o today u q r v s)).
Proof.
  cbv zeta. intros Hpriced Hguard.
  rewrite (gridPoint_run E eng o today u q r v s Hpriced). rewrite Hguard.
  apply compare_keeps.
Qed.

(** Inside the sweep, a grid point reports the first check out of
    tolerance, in key order. *)
Lemma gridPoint_outcome (s : TestState) :
  let base := mkMarket u q r v today in
  pricedBy E eng o (gridPointMarkets today base) ->
  sweeping today s ->
  gridPoint E o today u q r v s =
  if u * 1.0e-5 <? value_ (eng o base)
  then (match List.find (exceeds E u) (checks E eng o today base) with
        | Some c => BoostFail (failureOf E o today base c)
        | None => Normal tt
        end,
        afterProbes E eng o today base (afterAnalytic eng o base s))
  else (Normal tt, afterAnalytic eng o base s).
Proof.
  cbv zeta. intros Hpriced (Hdate & Htol & Hc & He).
  assert (Hpriced' :
    pricedBy E eng o
      (gridPointMarkets today (mkMarket u q r v (evaluationDate (market s)))))
    by (rewrite Hdate; exact Hpriced).
  rewrite (gridPoint_run E eng o today u q r v s Hpriced'). rewrite Hdate.
  destruct (u * 1.0e-5 <? _); [|reflexivity].
  unfold afterProbes, afterAnalytic. simpl_store.
  rewrite (calculated_filled _ _ _ _ _ _ Hc), (expected_filled _ _ _ _ _ _ He), Htol.
  rewrite compare_filled. reflexivity.
Qed.

(** A grid point takes a store of the sweep to a store of the sweep with
    one more grid point priced, or reports a failure. *)
Lemma gridPoint_triple (k : nat) :
  pricedBy E eng o (gridPointMarkets today (mkMarket u q r v today)) ->
  triple (sweepingAfter today k) (gridPoint E o today u q r v)
         (sweepingAfter today (1 + k)) (failedAt E eng today).
Proof.
  intros Hpriced s [Hs Hk].
  rewrite (gridPoint_outcome s Hpriced Hs).
  destruct Hs as (Hdate & Htol & Hc & He).
  unfold gridPointsPriced in Hk.
  assert (Hafter : sweepingAfter today (1 + k)
                     (afterAnalytic eng o (mkMarket u q r v today) s)).
  { split.
    - unfold sweeping, afterAnalytic. simpl_store.
      rewrite (calculated_filled _ _ _ _ _ _ Hc).
      repeat split; auto. right. reflexivity.
    - unfold gridPointsPriced, afterAnalytic. simpl_store.
      rewrite List.filter_app, List.length_app, Hk. reflexivity. }
  destruct (u * 1.0e-5 <? _); [|exact Hafter].
  destruct (List.find _ _) as [c|] eqn:Hfind.
  - exists o, (mkMarket u q r v today), s, c. repeat split. exact Hfind.
  - destruct Hafter as [(_ & _ & Hc' & _) Hk'].
    split.
    + unfold sweeping, afterProbes. simpl_store.
      rewrite (expected_filled _ _ _ _ _ _ He).
      repeat split; auto. right. reflexivity.
    + unfold gridPointsPriced, afterProbes. simpl_store.
      rewrite List.filter_app, List.length_app.
      unfold gridPointsPriced in Hk'. rewrite Hk'. reflexivity.
Qed.

End GridPoint.

(** ** The finite-difference estimates *)

(** C1.  At a grid point that is not skipped, the gamma estimate left in
    [expected] is the central difference of the engine's analytic delta
    at the two bumped spots [u + du] and [u - du], with [du = u * 1.0e-4]:
    [(delta(u+du) - delta(u-du)) / (2*du)]. *)
Theorem gamma_estimate_from_analytic_delta
    (E : Externals) (eng : DividendVanillaOption -> MarketState -> Results)
    (o : DividendVanillaOption) (today : Date)
    (u : Real) (q r : Rate) (v : Volatility) (s : TestState) :
  let base := mkMarket u q r v (evaluationDate (market s)) in
  pricedBy E eng o (gridPointMarkets today base) ->
  (u * 1.0e-5 <? value_ (eng o base)) = true ->
  let du := u * 1.0e-4 in
  let delta_p := delta_ (eng o (setSpot (u + du) base)) in
  let delta_m := delta_ (eng o (setSpot (u - du) base)) in
  StdMap.find "gamma" (expected (snd (gridPoint E o today u q r v s))) =
  Some ((delta_p - delta_m) / (2 * du)).
Proof.
  intros base Hpriced Hguard du delta_p delta_m.
  destruct (gridPoint_keeps E eng o today u q r v s Hpriced Hguard)
    as (_ & _ & _ & He & _).
  apply He.
  apply (afterProbes_expected E eng o today base).
Qed.

Lemma gamma_estimate_from_analytic_delta_witness :
  StdMap.find "gamma"
    (expected (snd (gridPoint (Example.env (Example.total Example.smooth))
                              Example.call100 38000%Z 100 0.1 0.05 0.2
                              Example.fresh))) =
  Some ((delta_ (Example.smooth Example.call100
                   (mkMarket (100 + 100 * 1.0e-4) 0.1 0.05 0.2 38000%Z))
         - delta_ (Example.smooth Example.call100
                   (mkMarket (100 - 100 * 1.0e-4) 0.1 0.05 0.2 38000%Z)))
        / (2 * (100 * 1.0e-4))).
Proof.
  apply (gamma_estimate_from_analytic_delta
           (Example.env (Example.total Example.smooth)) Example.smooth
           Example.call100 38000%Z 100 0.1 0.05 0.2 Example.fresh).
  - intros m _. reflexivity.
  - vm_compute. reflexivity.
Defined.

(** C5.  At a grid point that is not skipped, the delta, rho and vega
    estimates left in [expected] are central differences of the analytic
    value, the bump being the bumped input times [1.0e-4]:
    [(V(u+du) - V(u-du)) / (2*du)] with [du = u * 1.0e-4],
    [(V(r+dr) - V(r-dr)) / (2*dr)] with [dr = r * 1.0e-4],
    [(V(v+dv) - V(v-dv)) / (2*dv)] with [dv = v * 1.0e-4]. *)
Theorem delta_rho_vega_estimates
    (E : Externals) (eng : DividendVanillaOption -> MarketState -> Results)
    (o : DividendVanillaOption) (today : Date)
    (u : Real) (q r : Rate) (v : Volatility) (s : TestState) :
  let base := mkMarket u q r v (evaluationDate (market s)) in
  pricedBy E eng o (gridPointMarkets today base) ->
  (u * 1.0e-5 <? value_ (eng o base)) = true ->
  let V := fun m => value_ (eng o m) in
  let du := u * 1.0e-4 in
  let dr := r * 1.0e-4 in
  let dv := v * 1.0e-4 in
  let e := expected (snd (gridPoint E o today u q r v s)) in
  StdMap.find "delta" e =
    Some ((V (setSpot (u + du) base) - V (setSpot (u - du) base)) / (2 * du)) /\
  StdMap.find "rho" e =
    Some ((V (setRiskFreeRate (r + dr) base) - V (setRiskFreeRate (r - dr) base))
          / (2 * dr)) /\
  StdMap.find "vega" e =
    Some ((V (setVolatility (v + dv) base) - V (setVolatility (v - dv) base))
          / (2 * dv)).
Proof.
  intros base Hpriced Hguard V du dr dv e.
  destruct (gridPoint_keeps E eng o today u q r v s Hpriced Hguard)
    as (_ & _ & _ & He & _).
  destruct (afterProbes_expected E eng o today base (afterAnalytic eng o base s))
    as (Hd & _ & Hr & Hv & _).
  repeat split; apply He; assumption.
Qed.

Lemma delta_rho_vega_estimates_witness :
  let base := mkMarket 100 0.1 0.05 0.2 38000%Z in
  let V := fun m => value_ (Example.smooth Example.call100 m) in
  let e := expected (snd (gridPoint (Example.env (Example.total Example.smooth))
                                    Example.call100 38000%Z 100 0.1 0.05 0.2
                                    Example.fresh)) in
  StdMap.find "delta" e =
    Some ((V (setSpot (100 + 100 * 1.0e-4) base)
           - V (setSpot (100 - 100 * 1.0e-4) base)) / (2 * (100 * 1.0e-4))) /\
  StdMap.find "rho" e =
    Some ((V (setRiskFreeRate (0.05 + 0.05 * 1.0e-4) base)
           - V (setRiskFreeRate (0.05 - 0.05 * 1.0e-4) base))
          / (2 * (0.05 * 1.0e-4))) /\
  StdMap.find "vega" e =
    Some ((V (setVolatility (0.2 + 0.2 * 1.0e-4) base)
           - V (setVolatility (0.2 - 0.2 * 1.0e-4) base))
          / (2 * (0.2 * 1.0e-4))).
Proof.
  apply (delta_rho_vega_estimates
           (Example.env (Example.total Example.smooth)) Example.smooth
           Example.call100 38000%Z 100 0.1 0.05 0.2 Example.fresh).
  - intros m _. reflexivity.
  - vm_compute. reflexivity.
Defined.

(** C3.  At a grid point that is not skipped, the theta estimate is
    obtained from the values priced with the evaluation date one day
    before and one day after today, whatever the maturity:
    [(V(today+1) - V(today-1)) / yearFraction(today-1, today+1)]; the
    two requests are made at exactly these dates, and the evaluation
    date is today again afterwards. *)
Theorem theta_estimate_one_day_steps
    (E : Externals) (eng : DividendVanillaOption -> MarketState -> Results)
    (o : DividendVanillaOption) (today : Date)
    (u : Real) (q r : Rate) (v : Volatility) (s : TestState) :
  evaluationDate (market s) = today ->
  let base := mkMarket u q r v today in
  pricedBy E eng o (gridPointMarkets today base) ->
  (u * 1.0e-5 <? value_ (eng o base)) = true ->
  let value_p := value_ (eng o (mkMarket u q r v (today + 1)%Z)) in
  let value_m := value_ (eng o (mkMarket u q r v (today - 1)%Z)) in
  let s' := snd (gridPoint E o today u q r v s) in
  StdMap.find "theta" (expected s') =
    Some ((value_p - value_m) / yearFraction E (today - 1)%Z (today + 1)%Z) /\
  (exists older,
     pricings s' =
     mkPricing QNPV o (mkMarket u q r v (today + 1)%Z)
     :: mkPricing QNPV o (mkMarket u q r v (today - 1)%Z) :: older) /\
  evaluationDate (market s') = evaluationDate (market s).
Proof.
  intros Hdate base Hpriced Hguard value_p value_m s'.
  assert (Hkeeps :
    keeps (afterProbes E eng o today base (afterAnalytic eng o base s)) s').
  { pose proof (gridPoint_keeps E eng o today u q r v s) as Hk.
    cbv zeta in Hk. rewrite Hdate in Hk. apply Hk; assumption. }
  destruct Hkeeps as (Hm & Hp & _ & He & _).
  destruct (afterProbes_expected E eng o today base (afterAnalytic eng o base s))
    as (_ & _ & _ & _ & Ht).
  split; [apply He; exact Ht|]. split.
  - rewrite Hp. unfold afterProbes, probeRequests. cbn [pricings app].
    eexists. reflexivity.
  - rewrite Hm, Hdate. reflexivity.
Qed.

Lemma theta_estimate_one_day_steps_witness :
  let E := Example.env (Example.total Example.smooth) in
  let value_p := value_ (Example.smooth Example.call100
                           (mkMarket 100 0.1 0.05 0.2 (38000 + 1)%Z)) in
  let value_m := value_ (Example.smooth Example.call100
                           (mkMarket 100 0.1 0.05 0.2 (38000 - 1)%Z)) in
  let s' := snd (gridPoint E Example.call100 38000%Z 100 0.1 0.05 0.2
                           Example.fresh) in
  StdMap.find "theta" (expected s') =
    Some ((value_p - value_m)
          / yearFraction E (38000 - 1)%Z (38000 + 1)%Z) /\
  (exists older,
     pricings s' =
     mkPricing QNPV Example.call100 (mkMarket 100 0.1 0.05 0.2 (38000 + 1)%Z)
     :: mkPricing QNPV Example.call100 (mkMarket 100 0.1 0.05 0.2 (38000 - 1)%Z)
     :: older) /\
  evaluationDate (market s') = evaluationDate (market Example.fresh).
Proof.
  apply (theta_estimate_one_day_steps
           (Example.env (Example.total Example.smooth)) Example.smooth
           Example.call100 38000%Z 100 0.1 0.05 0.2 Example.fresh).
  - reflexivity.
  - intros m _. reflexivity.
  - vm_compute. reflexivity.
Defined.

(** ** The guard *)

(** C10.  At a grid point the value and the five analytic Greeks are
    requested from the instrument, in this order, before anything else,
    whether or not the guard lets the probes run: the history gains the
    six analytic requests at the base point, followed by the probe
    requests only when the guard holds, and [calculated] ends with the
    five analytic Greeks in both cases. *)
Theorem analytic_results_before_guard
    (E : Externals) (eng : DividendVanillaOption -> MarketState -> Results)
    (o : DividendVanillaOption) (today : Date)
    (u : Real) (q r : Rate) (v : Volatility) (s : TestState) :
  let base := mkMarket u q r v (evaluationDate (market s)) in
  pricedBy E eng o (gridPointMarkets today base) ->
  let res := eng o base in
  let s' := snd (gridPoint E o today u q r v s) in
  pricings s' =
    (if u * 1.0e-5 <? value_ res then probeRequests o today base else [])
    ++ [ mkPricing QVega o base; mkPricing QRho o base;
         mkPricing QTheta o base; mkPricing QGamma o base;
         mkPricing QDelta o base; mkPricing QNPV o base ]
    ++ pricings s /\
  StdMap.find "delta" (calculated s') = Some (delta_ res) /\
  StdMap.find "gamma" (calculated s') = Some (gamma_ res) /\
  StdMap.find "theta" (calculated s') = Some (theta_ res) /\
  StdMap.find "rho" (calculated s') = Some (rho_ res) /\
  StdMap.find "vega" (calculated s') = Some (vega_ res).
Proof.
  intros base Hpriced res s'.
  destruct (afterAnalytic_calculated eng o base s) as (Hd & Hg & Ht & Hr & Hv).
  destruct (u * 1.0e-5 <? value_ res) eqn:Hguard.
  - destruct (gridPoint_keeps E eng o today u q r v s Hpriced Hguard)
      as (_ & Hp & Hc & _ & _).
    fold s' in Hp, Hc. rewrite Hp.
    split; [reflexivity|].
    repeat split; apply Hc; assumption.
  - subst s'. rewrite (gridPoint_run E eng o today u q r v s Hpriced).
    fold base. fold res. rewrite Hguard. cbn [snd].
    split; [reflexivity|]. repeat split; assumption.
Qed.

Lemma analytic_results_before_guard_witness :
  let E := Example.env (Example.total Example.atThreshold) in
  let base := mkMarket 100 0.1 0.05 0.2 38000%Z in
  let res := Example.atThreshold Example.call100 base in
  let s' := snd (gridPoint E Example.call100 38000%Z 100 0.1 0.05 0.2
                           Example.fresh) in
  pricings s' =
    (if 100 * 1.0e-5 <? value_ res
     then probeRequests Example.call100 38000%Z base else [])
    ++ [ mkPricing QVega Example.call100 base;
         mkPricing QRho Example.call100 base;
         mkPricing QTheta Example.call100 base;
         mkPricing QGamma Example.call100 base;
         mkPricing QDelta Example.call100 base;
         mkPricing QNPV Example.call100 base ]
    ++ pricings Example.fresh /\
  StdMap.find "delta" (calculated s') = Some (delta_ res) /\
  StdMap.find "gamma" (calculated s') = Some (gamma_ res) /\
  StdMap.find "theta" (calculated s') = Some (theta_ res) /\
  StdMap.find "rho" (calculated s') = Some (rho_ res) /\
  StdMap.find "vega" (calculated s') = Some (vega_ res).
Proof.
  apply (analytic_results_before_guard
           (Example.env (Example.total Example.atThreshold))
           Example.atThreshold Example.call100 38000%Z 100 0.1 0.05 0.2
           Example.fresh).
  intros m _. reflexivity.
Defined.



(** ** Save, perturb, restore *)

(** Symbolic execution when the engine may throw: every request splits
    the run on what the engine does. *)
Ltac run_partial E o :=
  repeat (run_with ltac:(rewrite bind_ask; cbv zeta);
          try match goal with
              | H : engine E o ?m = _ |- context [engine E o ?m] => rewrite H
              | |- context [engine E o ?m] =>
                  let Heng := fresh "Heng" in
                  destruct (engine E o m) eqn:Heng
              end);
  cbn [fst snd]; simpl_store.

(** The run of a probe, whatever the engine does: it ends at the first
    pricing call that throws, with the store as that call found it, and
    otherwise writes the saved value back and the estimates. *)
Lemma perturbSpot_run (E : Externals) (o : DividendVanillaOption)
    (u : Real) (s : TestState) :
  perturbSpot E o u s =
  let du := u * 1.0e-4 in
  let up := setSpot (u + du) (market s) in
  let down := setSpot (u - du) (market s) in
  let store := fun m e p => mkState m (calculated s) e (tolerance s) p in
  match engine E o up with
  | None => (EngineError,
             store up (expected s) (mkPricing QNPV o up :: pricings s))
  | Some res_p =>
      match engine E o down with
      | None => (EngineError,
                 store down (expected s)
                       (mkPricing QNPV o down :: mkPricing QDelta o up
                        :: mkPricing QNPV o up :: pricings s))
      | Some res_m =>
          (Normal tt,
           store (setSpot u (market s))
                 (StdMap.assign "gamma" ((delta_ res_p - delta_ res_m) / (2 * du))
                   (StdMap.assign "delta"
                      ((value_ res_p - value_ res_m) / (2 * du)) (expected s)))
                 (mkPricing QDelta o down :: mkPricing QNPV o down
                  :: mkPricing QDelta o up :: mkPricing QNPV o up
                  :: pricings s))
      end
  end.
Proof.
  destruct s as [[s0 q0 r0 v0 d0] c e t p].
  cbv zeta. unfold perturbSpot. unfold_requests.
  unfold setSpot, setRiskFreeRate, setVolatility, setDate. simpl_store.
  run_partial E o; reflexivity.
Qed.

Lemma perturbRate_run (E : Externals) (o : DividendVanillaOption)
    (r : Rate) (s : TestState) :
  perturbRate E o r s =
  let dr := r * 1.0e-4 in
  let up := setRiskFreeRate (r + dr) (market s) in
  let down := setRiskFreeRate (r - dr) (market s) in
  let store := fun m e p => mkState m (calculated s) e (tolerance s) p in
  match engine E o up with
  | None => (EngineError,
             store up (expected s) (mkPricing QNPV o up :: pricings s))
  | Some res_p =>
      match engine E o down with
      | None => (EngineError,
                 store down (expected s)
                       (mkPricing QNPV o down :: mkPricing QNPV o up
                        :: pricings s))
      | Some res_m =>
          (Normal tt,
           store (setRiskFreeRate r (market s))
                 (StdMap.assign "rho" ((value_ res_p - value_ res_m) / (2 * dr))
                                (expected s))
                 (mkPricing QNPV o down :: mkPricing QNPV o up :: pricings s))
      end
  end.
Proof.
  destruct s as [[s0 q0 r0 v0 d0] c e t p].
  cbv zeta. unfold perturbRate. unfold_requests.
  unfold setSpot, setRiskFreeRate, setVolatility, setDate. simpl_store.
  run_partial E o; reflexivity.
Qed.

Lemma perturbVol_run (E : Externals) (o : DividendVanillaOption)
    (v : Volatility) (s : TestState) :
  perturbVol E o v s =
  let dv := v * 1.0e-4 in
  let up := setVolatility (v + dv) (market s) in
  let down := setVolatility (v - dv) (market s) in
  let store := fun m e p => mkState m (calculated s) e (tolerance s) p in
  match engine E o up with
  | None => (EngineError,
             store up (expected s) (mkPricing QNPV o up :: pricings s))
  | Some res_p =>
      match engine E o down with
      | None => (EngineError,
                 store down (expected s)
                       (mkPricing QNPV o down :: mkPricing QNPV o up
                        :: pricings s))
      | Some res_m =>
          (Normal tt,
           store (setVolatility v (market s))
                 (StdMap.assign "vega" ((value_ res_p - value_ res_m) / (2 * dv))
                                (expected s))
                 (mkPricing QNPV o down :: mkPricing QNPV o up :: pricings s))
      end
  end.
Proof.
  destruct s as [[s0 q0 r0 v0 d0] c e t p].
  cbv zeta. unfold perturbVol. unfold_requests.
  unfold setSpot, setRiskFreeRate, setVolatility, setDate. simpl_store.
  run_partial E o; reflexivity.
Qed.

Lemma perturbDate_run (E : Externals) (o : DividendVanillaOption)
    (today : Date) (s : TestState) :
  perturbDate E o today s =
  let before := setDate (today - 1)%Z (market s) in
  let after := setDate (today + 1)%Z (market s) in
  let store := fun m e p => mkState m (calculated s) e (tolerance s) p in
  match engine E o before with
  | None => (EngineError,
             store before (expected s) (mkPricing QNPV o before :: pricings s))
  | Some res_m =>
      match engine E o after with
      | None => (EngineError,
                 store after (expected s)
                       (mkPricing QNPV o after :: mkPricing QNPV o before
                        :: pricings s))
      | Some res_p =>
          (Normal tt,
           store (setDate today (market s))
                 (StdMap.assign "theta"
                    ((value_ res_p - value_ res_m)
                     / yearFraction E (today - 1)%Z (today + 1)%Z)
                    (expected s))
                 (mkPricing QNPV o after :: mkPricing QNPV o before
                  :: pricings s))
      end
  end.
Proof.
  destruct s as [[s0 q0 r0 v0 d0] c e t p].
  cbv zeta. unfold perturbDate. unfold_requests.
  unfold setSpot, setRiskFreeRate, setVolatility, setDate. simpl_store.
  run_partial E o; reflexivity.
Qed.

(** C6.  Where the engine prices a grid point, each of the four probes,
    run from the base point, completes and leaves the market data
    exactly as they were (the saved [u], [r], [v] and [today] themselves
    are written back), so pricing after the probe gives what pricing
    before it gave; and the grid point as a whole ends with the market
    data at its base point, whatever the store it started from. *)
Theorem restore_reproduces_base_price
    (E : Externals) (eng : DividendVanillaOption -> MarketState -> Results)
    (o : DividendVanillaOption) (today : Date)
    (u : Real) (q r : Rate) (v : Volatility) :
  let base := mkMarket u q r v today in
  pricedBy E eng o (gridPointMarkets today base) ->
  (forall probe,
     In probe [perturbSpot E o u; perturbRate E o r; perturbVol E o v;
               perturbDate E o today] ->
     forall s, market s = base ->
       fst (probe s) = Normal tt /\
       market (snd (probe s)) = market s /\
       engine E o (market (snd (probe s))) = engine E o (market s)) /\
  (forall s, evaluationDate (market s) = today ->
     market (snd (gridPoint E o today u q r v s)) = base /\
     engine E o (market (snd (gridPoint E o today u q r v s))) =
     engine E o base).
Proof.
  cbv zeta. intros Hpriced. split.
  - intros probe Hin s Hs.
    assert (Hgoal : fst (probe s) = Normal tt /\ market (snd (probe s)) = market s).
    { destruct s as [m c e t p]. cbn [market] in Hs. subst m.
      cbn [In] in Hin.
      destruct Hin as [<-|[<-|[<-|[<-|[]]]]];
        unfold perturbSpot, perturbRate, perturbVol, perturbDate;
        unfold_requests;
        run_with ltac:(ask_priced Hpriced);
        cbn [fst snd]; simpl_store; split; reflexivity. }
    destruct Hgoal as [Hfst Hmarket].
    repeat split; [exact Hfst|exact Hmarket|now rewrite Hmarket].
  - intros s Hdate.
    assert (Hmarket :
      market (snd (gridPoint E o today u q r v s)) = mkMarket u q r v today).
    { assert (Hpriced' :
        pricedBy E eng o
          (gridPointMarkets today (mkMarket u q r v (evaluationDate (market s)))))
        by (rewrite Hdate; exact Hpriced).
      rewrite (gridPoint_run E eng o today u q r v s Hpriced'). rewrite Hdate.
      destruct (u * 1.0e-5 <? _); [|reflexivity].
      match goal with
      | |- market (snd (compare _ _ _ _ _ _ _ ?s0)) = _ =>
          destruct (compare_keeps E o u q r today v s0) as (Hm & _)
      end.
      rewrite Hm. reflexivity. }
    split; [exact Hmarket|now rewrite Hmarket].
Qed.

Lemma restore_reproduces_base_price_witness :
  let E := Example.env (Example.total Example.smooth) in
  let base := mkMarket 100 0.1 0.05 0.2 38000%Z in
  (forall probe,
     In probe [perturbSpot E Example.call100 100;
               perturbRate E Example.call100 0.05;
               perturbVol E Example.call100 0.2;
               perturbDate E Example.call100 38000%Z] ->
     forall s, market s = base ->
       fst (probe s) = Normal tt /\
       market (snd (probe s)) = market s /\
       engine E Example.call100 (market (snd (probe s))) =
       engine E Example.call100 (market s)) /\
  (forall s, evaluationDate (market s) = 38000%Z ->
     market (snd (gridPoint E Example.call100 38000%Z 100 0.1 0.05 0.2 s))
     = base /\
     engine E Example.call100
       (market (snd (gridPoint E Example.call100 38000%Z 100 0.1 0.05 0.2 s)))
     = engine E Example.call100 base).
Proof.
  apply (restore_reproduces_base_price
           (Example.env (Example.total Example.smooth)) Example.smooth
           Example.call100 38000%Z 100 0.1 0.05 0.2).
  intros m _. reflexivity.
Defined.

(** C7 as stated fails: when the engine throws at the bumped spot, the
    spot probe is left with the quote at [u + du], not at the saved
    [u = 100]; the whole test then ends with the quote still there. *)
Lemma pricing_failure_leaves_spot_bumped :
  let E := Example.env Example.fragile in
  let s := mkState (mkMarket 100 0.1 0.05 0.2 38000%Z) [] [] tolerances [] in
  let probe := perturbSpot E Example.call100 100 s in
  let test := testGreeks E initialState in
  fst probe = EngineError /\
  spot (market (snd probe)) <> spot (market s) /\
  fst test = EngineError /\
  spot (market (snd test)) <> 100.
Proof.
  cbv zeta.
  split; [vm_compute; reflexivity|].
  split.
  { assert (Hb : (spot (market (snd (perturbSpot (Example.env Example.fragile)
                     Example.call100 100
                     (mkState (mkMarket 100 0.1 0.05 0.2 38000%Z) [] []
                              tolerances [])))) =? 100) = false)
      by (vm_compute; reflexivity).
    cbn [market spot]. intros Heq. rewrite Heq in Hb.
    vm_compute in Hb. discriminate Hb. }
  split; [vm_compute; reflexivity|].
  assert (Hb : (spot (market (snd (testGreeks (Example.env Example.fragile)
                   initialState))) =? 100) = false)
    by (vm_compute; reflexivity).
  intros Heq. rewrite Heq in Hb. vm_compute in Hb. discriminate Hb.
Qed.

(** ** The checks *)

(** C8, as amended.  At a grid point of the sweep that is not skipped,
    the error of a Greek is [relativeError(expected, calculated, u)]:
    the finite-difference estimate against the analytic result, with the
    spot [u] as the reference; the tolerance is [1.0e-5] for each of the
    five Greeks; and the grid point reports the first Greek, in key
    order (delta, gamma, rho, theta, vega), whose error is above the
    tolerance, with exactly these numbers.  A Greek is therefore reported
    exactly when its error is above [1.0e-5] and the error of no earlier
    Greek is; when no error is above [1.0e-5] nothing is reported. *)
Theorem first_greek_out_of_tolerance_is_reported
    (E : Externals) (eng : DividendVanillaOption -> MarketState -> Results)
    (o : DividendVanillaOption) (today : Date)
    (u : Real) (q r : Rate) (v : Volatility) (s : TestState) :
  sweeping today s ->
  let base := mkMarket u q r v today in
  pricedBy E eng o (gridPointMarkets today base) ->
  (u * 1.0e-5 <? value_ (eng o base)) = true ->
  let res := eng o base in
  let error := fun expct calcl => relativeError E expct calcl u in
  fst (gridPoint E o today u q r v s) =
  match List.find (fun '(_, expct, calcl) => 1.0e-5 <? error expct calcl)
                  [ ("delta", deltaEstimate eng o base, delta_ res);
                    ("gamma", gammaEstimate eng o base, gamma_ res);
                    ("rho", rhoEstimate eng o base, rho_ res);
                    ("theta", thetaEstimate E eng o today base, theta_ res);
                    ("vega", vegaEstimate eng o base, vega_ res) ]%string
  with
  | Some (greek, expct, calcl) =>
      BoostFail (mkFailure (optionType (payoff o)) u (strike (payoff o))
                           q r today (lastDate o) v
                           greek expct calcl (error expct calcl) 1.0e-5)
  | None => Normal tt
  end.
Proof.
  intros Hs base Hpriced Hguard res error.
  rewrite (gridPoint_outcome E eng o today u q r v s Hpriced Hs).
  fold base. rewrite Hguard. cbn [fst].
  unfold checks, exceeds, failureOf. fold res.
  destruct (List.find _ _) as [[[greek expct] calcl]|]; reflexivity.
Qed.

Lemma first_greek_out_of_tolerance_is_reported_witness :
  let E := Example.env (Example.total Example.wrongGreeks) in
  let eng := Example.wrongGreeks in
  let o := Example.call100 in
  let base := mkMarket 100 0.1 0.05 0.2 38000%Z in
  let res := eng o base in
  let error := fun expct calcl => relativeError E expct calcl 100 in
  fst (gridPoint E o 38000%Z 100 0.1 0.05 0.2 Example.fresh) =
  match List.find (fun '(_, expct, calcl) => 1.0e-5 <? error expct calcl)
                  [ ("delta", deltaEstimate eng o base, delta_ res);
                    ("gamma", gammaEstimate eng o base, gamma_ res);
                    ("rho", rhoEstimate eng o base, rho_ res);
                    ("theta", thetaEstimate E eng o 38000%Z base, theta_ res);
                    ("vega", vegaEstimate eng o base, vega_ res) ]%string
  with
  | Some (greek, expct, calcl) =>
      BoostFail (mkFailure (optionType (payoff o)) 100 (strike (payoff o))
                           0.1 0.05 38000%Z (lastDate o) 0.2
                           greek expct calcl (error expct calcl) 1.0e-5)
  | None => Normal tt
  end.
Proof.
  apply (first_greek_out_of_tolerance_is_reported
           (Example.env (Example.total Example.wrongGreeks))
           Example.wrongGreeks Example.call100 38000%Z 100 0.1 0.05 0.2
           Example.fresh).
  - unfold sweeping, filled. cbn. auto.
  - intros m _. reflexivity.
  - vm_compute. reflexivity.
Defined.

(** C8 as stated fails for a Greek that comes after a reported one: with
    a wrong delta and a wrong gamma, the gamma estimate in [expected]
    and the gamma in [calculated] are further apart than the tolerance,
    yet the grid point reports delta only. *)
Lemma gamma_out_of_tolerance_not_reported :
  let E := Example.env (Example.total Example.wrongGreeks) in
  let run := gridPoint E Example.call100 38000%Z 100 0.1 0.05 0.2
                       Example.fresh in
  (exists expct calcl,
     StdMap.find "gamma" (expected (snd run)) = Some expct /\
     StdMap.find "gamma" (calculated (snd run)) = Some calcl /\
     (1.0e-5 <? relativeError E expct calcl 100) = true) /\
  (exists f, fst run = BoostFail f /\ f_greekName f = "delta"%string) /\
  ~ (exists f, fst run = BoostFail f /\ f_greekName f = "gamma"%string).
Proof.
  cbv zeta. split; [|split].
  - eexists. eexists. vm_compute. repeat split; reflexivity.
  - eexists. vm_compute. split; reflexivity.
  - intros (f & Hrun & Hname).
    assert (Hd : exists f0,
               fst (gridPoint (Example.env (Example.total Example.wrongGreeks))
                              Example.call100 38000%Z 100 0.1 0.05 0.2
                              Example.fresh) = BoostFail f0 /\
               f_greekName f0 = "delta"%string)
      by (eexists; vm_compute; split; reflexivity).
    destruct Hd as (f0 & Hrun0 & Hname0).
    rewrite Hrun in Hrun0. injection Hrun0 as <-.
    rewrite Hname in Hname0. discriminate Hname0.
Qed.

(** ** The loops *)

(** A loop whose body takes the stores of [J k] to those of [J (n + k)]
    or reports a failure: it does so once per element, and a failure of
    the body is a failure of the loop. *)
Lemma forM__triple (A : Type) (J : nat -> TestState -> Prop)
    (P : Failure -> TestState -> Prop) (n : nat)
    (body : A -> M unit) (l : list A) :
  (forall x k, In x l -> triple (J k) (body x) (J (n + k)%nat) P) ->
  forall k, triple (J k) (forM_ l body) (J (List.length l * n + k)%nat) P.
Proof.
  induction l as [|x l IH]; intros Hbody k s Hs.
  - exact Hs.
  - rewrite forM__cons.
    pose proof (Hbody x k (or_introl eq_refl) s Hs) as Hx.
    destruct (body x s) as [[[]|f| |] s1]; auto.
    assert (Hrest : forall y k', In y l ->
                      triple (J k') (body y) (J (n + k')%nat) P)
      by (intros y k' Hy; apply Hbody; right; exact Hy).
    specialize (IH Hrest (n + k)%nat s1 Hx).
    destruct (forM_ l body s1) as [[[]|f| |] s2]; auto.
    replace (List.length (x :: l) * n + k)%nat
      with (List.length l * n + (n + k))%nat by (cbn [List.length]; lia).
    exact IH.
Qed.

Section Sweep.

Context (E : Externals)
        (eng : DividendVanillaOption -> MarketState -> Results)
        (Hgrid : pricesTheGrid E eng).

Let today : Date := todaysDate E.

Lemma marketLoops_triple (type : Option.Type_) (strike_ : Real)
    (length_ : Integer) (dates : list Date) (amounts : list Real) (k : nat) :
  In type types -> In strike_ strikes -> In length_ lengths ->
  let exDate := (today + length_ * dayCounterBase E)%Z in
  dividendSchedule E today exDate = Some (dates, amounts) ->
  triple (sweepingAfter today k)
         (marketLoops E (mkOption (mkPayoff type strike_) exDate dates amounts)
                      today)
         (sweepingAfter today (27 + k)) (failedAt E eng today).
Proof.
  intros Htype Hstrike Hlength exDate Hschedule.
  unfold marketLoops.
  apply (forM__triple _ (sweepingAfter today) _ 27 _ underlyings).
  intros u k1 Hu.
  apply (forM__triple _ (sweepingAfter today) _ 9 _ qRates).
  intros q k2 Hq.
  apply (forM__triple _ (sweepingAfter today) _ 3 _ rRates).
  intros r k3 Hr.
  apply (forM__triple _ (sweepingAfter today) _ 1 _ vols).
  intros v k4 Hv.
  apply gridPoint_triple.
  apply Hgrid; assumption.
Qed.

Lemma optionLoopBody_triple (type : Option.Type_) (strike_ : Real)
    (length_ : Integer) (k : nat) :
  In type types -> In strike_ strikes -> In length_ lengths ->
  triple (sweepingAfter today k) (optionLoopBody E today type strike_ length_)
         (sweepingAfter today (27 + k)) (failedAt E eng today).
Proof.
  intros Htype Hstrike Hlength.
  unfold optionLoopBody.
  destruct (dividendSchedule E today _) as [[dates amounts]|] eqn:Hschedule.
  - apply marketLoops_triple; assumption.
  - intros s Hs. exact I.
Qed.

(** The loops start in a store of the sweep. *)
Lemma testBody_start :
  testBody E initialState =
  forM_ types (fun type =>
  forM_ strikes (fun strike_ =>
  forM_ lengths (fun length_ =>
    optionLoopBody E today type strike_ length_)))
  (mkState (mkMarket 0 0 0 0 today) [] [] tolerances []).
Proof. reflexivity. Qed.

(** The test ends in a store of the sweep with its 540 grid points
    priced, or where a grid point reported a failure. *)
Lemma testBody_triple :
  match testBody E initialState with
  | (Normal _, s') => sweepingAfter today 540 s'
  | (BoostFail f, s') => failedAt E eng today f s'
  | _ => True
  end.
Proof.
  rewrite testBody_start.
  assert (Hloops :
    triple (sweepingAfter today 0)
      (forM_ types (fun type =>
       forM_ strikes (fun strike_ =>
       forM_ lengths (fun length_ =>
         optionLoopBody E today type strike_ length_))))
      (sweepingAfter today 540) (failedAt E eng today)).
  { apply (forM__triple _ (sweepingAfter today) _ 270 _ types).
    intros type k1 Htype.
    apply (forM__triple _ (sweepingAfter today) _ 54 _ strikes).
    intros strike_ k2 Hstrike.
    apply (forM__triple _ (sweepingAfter today) _ 27 _ lengths).
    intros length_ k3 Hlength.
    apply optionLoopBody_triple; assumption. }
  assert (Hpre : sweepingAfter today 0
                   (mkState (mkMarket 0 0 0 0 today) [] [] tolerances [])).
  { split; [|reflexivity].
    repeat split; try reflexivity; left; reflexivity. }
  specialize (Hloops _ Hpre).
  destruct (forM_ types _ _) as [[[]|f| |] s']; exact Hloops.
Qed.

End Sweep.

(** The test as a whole ends as its body does; [teardown] then resets
    the evaluation date and nothing else. *)
Lemma testGreeks_outcome (E : Externals) (s : TestState) :
  fst (testGreeks E s) = fst (testBody E s).
Proof.
  unfold testGreeks, QL_TEST.
  destruct (testBody E s) as [[[]|f| |] s']; reflexivity.
Qed.

Lemma testGreeks_store (E : Externals) (s : TestState) :
  let body := snd (testBody E s) in
  let test := snd (testGreeks E s) in
  pricings test = pricings body /\
  calculated test = calculated body /\
  expected test = expected body /\
  tolerance test = tolerance body /\
  (fst (testBody E s) <> Diverges ->
   market test = setDate nullDate (market body)).
Proof.
  unfold testGreeks, QL_TEST.
  destruct (testBody E s) as [[[]|f| |] s']; cbn; repeat split; try reflexivity.
  intros Hends. contradiction Hends. reflexivity.
Qed.

Lemma testGreeks_visited (E : Externals) (s : TestState) :
  visited (snd (testGreeks E s)) = visited (snd (testBody E s)).
Proof.
  destruct (testGreeks_store E s) as (Hp & _).
  unfold visited, gridPointsPriced. now rewrite Hp.
Qed.

(** An engine that throws outside its preconditions still prices the
    whole grid: the volatilities and strikes of the grid are positive,
    bumped or not, and the evaluation date stays before the exercise
    date. *)
Lemma checked_prices_the_grid
    (eng : DividendVanillaOption -> MarketState -> Results) :
  pricesTheGrid (Example.env (Example.checked eng)) eng.
Proof.
  intros type strike_ length_ dates amounts u q r v
         Htype Hstrike Hlength Hu Hq Hr Hv today exDate Hschedule m Hm.
  cbn [In strikes lengths underlyings vols] in Hstrike, Hlength, Hu, Hv.
  unfold gridPointMarkets in Hm. cbn [In] in Hm.
  repeat match goal with
         | H : _ \/ _ |- _ => destruct H as [H|H]
         | H : False |- _ => destruct H
         end;
    subst; vm_compute; reflexivity.
Qed.

(** C2 as stated fails: with a wrong delta the test is over at the first
    grid point, after 16 of its requests and the report for delta; the
    539 grid points that a full sweep goes on to are never priced. *)
Lemma sweep_stops_at_first_violation :
  let failing := testGreeks (Example.env (Example.total Example.wrongGreeks))
                            initialState in
  let passing := testGreeks (Example.env (Example.total Example.smooth))
                            initialState in
  (exists f, fst failing = BoostFail f /\ f_greekName f = "delta"%string) /\
  List.length (gridPointsPriced (snd failing)) = 1%nat /\
  List.length (pricings (snd failing)) = 16%nat /\
  fst passing = Normal tt /\
  List.length (gridPointsPriced (snd passing)) = 540%nat.
Proof.
  cbv zeta. split.
  - eexists. vm_compute. split; reflexivity.
  - vm_compute. repeat split; reflexivity.
Qed.

(** ** The dividend schedule *)

Section Schedule.

Context (E : Externals).

Hypothesis plusMonths_later :
  forall (d : Date) (n : Integer), (0 < n)%Z -> (d < plusMonths E d n)%Z.

Lemma nthDate_ge (i : nat) : forall d, (d <= nthDate E d i)%Z.
Proof.
  induction i as [|i IH]; intros d; cbn [nthDate]; [lia|].
  specialize (IH (plusMonths E d 6%Z)).
  specialize (plusMonths_later d 6%Z). lia.
Qed.

Lemma nthDate_mono (i : nat) :
  forall d j, (i <= j)%nat -> (nthDate E d i <= nthDate E d j)%Z.
Proof.
  induction i as [|i IH]; intros d j Hij.
  - apply nthDate_ge.
  - destruct j as [|j]; [lia|]. cbn [nthDate]. apply IH. lia.
Qed.

(** The loop ends within a bound of at least the days left to the
    exercise date, with the dates before it and nothing else. *)
Lemma dividendLoop_spec (exDate : Date) (bound : nat) :
  forall d, (exDate - d <= Z.of_nat bound)%Z ->
  exists n,
    dividendLoop E bound d exDate =
      Some (List.map (nthDate E d) (List.seq 0 n), List.repeat 5.0 n) /\
    (forall i, (i < n)%nat -> (nthDate E d i < exDate)%Z) /\
    (exDate <= nthDate E d n)%Z.
Proof.
  induction bound as [|bound IH]; intros d Hbound.
  - exists 0%nat. cbn [dividendLoop].
    destruct (Z.ltb_spec d exDate); [lia|].
    repeat split; [lia|cbn [nthDate]; lia].
  - cbn [dividendLoop].
    destruct (Z.ltb_spec d exDate) as [Hlt|Hge].
    + specialize (plusMonths_later d 6%Z).
      destruct (IH (plusMonths E d 6%Z)) as (n & Hrun & Hbefore & Hafter); [lia|].
      exists (S n). rewrite Hrun. repeat split.
      * cbn [List.seq List.map List.repeat nthDate].
        rewrite <- List.seq_shift, List.map_map. reflexivity.
      * intros [|i] Hi; cbn [nthDate]; [exact Hlt|]. apply Hbefore. lia.
      * exact Hafter.
    + exists 0%nat. repeat split; [lia|cbn [nthDate]; lia].
Qed.

End Schedule.

Lemma dividendSchedule_spec (E : Externals) (today exDate : Date) :
  (forall (d : Date) (n : Integer), (0 < n)%Z -> (d < plusMonths E d n)%Z) ->
  exists n,
    dividendSchedule E today exDate =
      Some (List.map (scheduledDate E today) (List.seq 0 n),
            List.repeat 5.0 n) /\
    (forall i, (i < n)%nat ->
       (today < scheduledDate E today i < exDate)%Z) /\
    (forall i, (n <= i)%nat -> (exDate <= scheduledDate E today i)%Z).
Proof.
  intros Hlater.
  pose proof (Hlater today 3%Z) as Hfirst.
  destruct (dividendLoop_spec E Hlater exDate (Z.to_nat (exDate - today))
              (plusMonths E today 3%Z)) as (n & Hrun & Hbefore & Hafter); [lia|].
  exists n. repeat split.
  - exact Hrun.
  - pose proof (nthDate_ge E Hlater i (plusMonths E today 3%Z)).
    unfold scheduledDate. lia.
  - apply Hbefore. assumption.
  - intros i Hi.
    pose proof (nthDate_mono E Hlater n (plusMonths E today 3%Z) i Hi).
    unfold scheduledDate. lia.
Qed.

(** C9.  When adding months moves a date forward, the dividend loop of
    each (type, strike, maturity) triple ends, and the option is built
    on the scheduled dates [today + 3*Months], [+ 6*Months], ... in
    order, each with the amount 5.0: every scheduled date before the
    exercise date is in the schedule and lies strictly between today and
    the exercise date; the first scheduled date on or after the exercise
    date, and all later ones, are left out. *)
Theorem dividend_schedule_dates (E : Externals) (today : Date)
    (type : Option.Type_) (strike_ : Real) (length_ : Integer) :
  (forall (d : Date) (n : Integer), (0 < n)%Z -> (d < plusMonths E d n)%Z) ->
  let exDate := (today + length_ * dayCounterBase E)%Z in
  exists n,
    let dates := List.map (scheduledDate E today) (List.seq 0 n) in
    let amounts := List.repeat 5.0 n in
    dividendSchedule E today exDate = Some (dates, amounts) /\
    optionLoopBody E today type strike_ length_ =
      marketLoops E (mkOption (mkPayoff type strike_) exDate dates amounts)
                  today /\
    (forall i, (i < n)%nat ->
       (today < scheduledDate E today i < exDate)%Z) /\
    (forall i, (n <= i)%nat -> (exDate <= scheduledDate E today i)%Z).
Proof.
  intros Hlater exDate.
  destruct (dividendSchedule_spec E today exDate Hlater)
    as (n & Hrun & Hbefore & Hafter).
  exists n. cbv zeta. repeat split; try assumption.
  - unfold optionLoopBody. fold exDate. rewrite Hrun. reflexivity.
  - apply Hbefore. assumption.
  - apply Hbefore. assumption.
Qed.

Lemma dividend_schedule_dates_witness :
  let E := Example.env (Example.total Example.smooth) in
  let exDate := (38000 + 1 * dayCounterBase E)%Z in
  exists n,
    let dates := List.map (scheduledDate E 38000%Z) (List.seq 0 n) in
    let amounts := List.repeat 5.0 n in
    dividendSchedule E 38000%Z exDate = Some (dates, amounts) /\
    optionLoopBody E 38000%Z Option.Call 100 1%Z =
      marketLoops E (mkOption (mkPayoff Option.Call 100) exDate dates amounts)
                  38000%Z /\
    (forall i, (i < n)%nat ->
       (38000 < scheduledDate E 38000%Z i < exDate)%Z) /\
    (forall i, (n <= i)%nat -> (exDate <= scheduledDate E 38000%Z i)%Z).
Proof.
  apply (dividend_schedule_dates (Example.env (Example.total Example.smooth))
                                 38000%Z Option.Call 100 1%Z).
  intros d n Hn. cbn. unfold Example.thirtyDayMonths. lia.
Defined.

(** The schedules of the two maturities under months of thirty days and
    a day-count base of 360. *)
Example one_year_schedule :
  dividendSchedule (Example.env (Example.total Example.smooth))
                   38000%Z 38360%Z =
  Some ([38090%Z; 38270%Z], [5.0; 5.0]).
Proof. reflexivity. Qed.

Example two_year_schedule :
  dividendSchedule (Example.env (Example.total Example.smooth))
                   38000%Z 38720%Z =
  Some ([38090%Z; 38270%Z; 38450%Z; 38630%Z], [5.0; 5.0; 5.0; 5.0]).
Proof. reflexivity. Qed.

(** A date on the exercise date itself is left out. *)
Example schedule_excludes_exercise_date :
  dividendSchedule (Example.env (Example.total Example.smooth))
                   38000%Z 38270%Z =
  Some ([38090%Z], [5.0]).
Proof. reflexivity. Qed.

(** * Further properties *)

(** ** Not-a-number *)

Lemma SFeqb_same_false (f : spec_float) : SFeqb f f = false -> f = S754_nan.
Proof.
  destruct f as [s|s| |s m e]; unfold SFeqb; cbn; try discriminate; auto.
  - destruct s; discriminate.
  - rewrite Z.compare_refl, Pos.compare_cont_refl. destruct s; discriminate.
Qed.

Lemma is_nan_spec (x : float) : is_nan x = true -> Prim2SF x = S754_nan.
Proof.
  unfold is_nan. rewrite eqb_spec. intros H.
  apply SFeqb_same_false. now destruct (SFeqb _ _).
Qed.

Lemma spec_is_nan (x : float) : Prim2SF x = S754_nan -> is_nan x = true.
Proof. unfold is_nan. rewrite eqb_spec. now intros ->. Qed.

(** Nothing is below not-a-number: [x < y] is false when [y] is not a
    number. *)
Lemma ltb_nan_r (x y : float) : is_nan y = true -> (x <? y) = false.
Proof.
  intros H. rewrite ltb_spec, (is_nan_spec y H).
  now destruct (Prim2SF x).
Qed.


(** [relativeError] as modelled yields not-a-number when the calculated
    value is not a number. *)
Lemma Example_relativeError_nan (expct calcl reference : Real) :
  is_nan calcl = true ->
  is_nan (Example.relativeError expct calcl reference) = true.
Proof.
  intros H. apply is_nan_spec in H.
  assert (Habs : Prim2SF (abs (expct - calcl)) = S754_nan).
  { rewrite abs_spec, sub_spec, H.
    now destruct (Prim2SF expct). }
  unfold Example.relativeError.
  destruct (reference =? 0); apply spec_is_nan; [exact Habs|].
  rewrite div_spec, Habs. reflexivity.
Qed.

(** ** A grid point under any engine *)

Ltac on_markets :=
  unfold gridPointMarkets; simpl_store; cbn [In];
  repeat first [left; reflexivity | right].

Ltac within_store :=
  unfold within; simpl_store;
  split; [|split; [cbn [List.length]; lia|reflexivity]];
  let p := fresh "p" in
  let Hp := fresh "Hp" in
  intros p Hp; cbn [In] in Hp;
  repeat (destruct Hp as [Hp|Hp];
          [right; subst p; split; [reflexivity|on_markets]|]);
  left; exact Hp.

Ltac thrown_store :=
  match goal with
  | Hnone : engine _ _ _ = None |- _ =>
      eexists; eexists; simpl_store; cbn [priced under];
      split; [reflexivity|split; [exact Hnone|reflexivity]]
  end.

Ltac run_requests E o :=
  repeat (run_with ltac:(rewrite bind_ask; cbv zeta);
          try match goal with
              | |- context [match engine E o ?m with _ => _ end] =>
                  let Heng := fresh "Heng" in
                  destruct (engine E o m) eqn:Heng
              end);
  try (left; eexists; split; [reflexivity|split; [within_store|thrown_store]]).

(** Whatever the engine does and whatever the store, a grid point ends
    in one of three ways, having made only requests of its own. *)
Lemma gridPoint_ends (E : Externals) (o : DividendVanillaOption)
    (today : Date) (u : Real) (q r : Rate) (v : Volatility) (s : TestState) :
  gridPointEnds E o today u q r v s (gridPoint E o today u q r v s).
Proof.
  unfold gridPointEnds. cbv zeta.
  unfold gridPoint. unfold_requests.
  run_requests E o.
  destruct (_ <? _).
  2: { right; left; eexists; split; [reflexivity|within_store]. }
  unfold perturbSpot, perturbRate, perturbVol, perturbDate. unfold_requests.
  run_requests E o.
  right; right. eexists; split; [reflexivity|within_store].
Qed.

(** Every market of a grid point has the dividend yield of its base
    point. *)
Lemma gridPointMarkets_qRate (today : Date) (base m : MarketState) :
  In m (gridPointMarkets today base) -> qRate m = qRate base.
Proof.
  unfold gridPointMarkets. cbn [In].
  intros H. repeat (destruct H as [<-|H]; [reflexivity|]). destruct H.
Qed.

(** X1.  Whatever the engine does (also when it throws) and whatever
    the store, a grid point makes at most sixteen pricing requests, each
    for its own option under its base point or one of the eight points
    that differ from it in one of spot, risk-free rate, volatility and
    evaluation date alone; the dividend yield is never perturbed: every
    request is priced under the yield [q], which the quote still holds
    at the end. *)
Theorem grid_point_requests_stay_on_its_markets
    (E : Externals) (o : DividendVanillaOption) (today : Date)
    (u : Real) (q r : Rate) (v : Volatility) (s : TestState) :
  let base := mkMarket u q r v (evaluationDate (market s)) in
  let s' := snd (gridPoint E o today u q r v s) in
  (forall p, In p (pricings s') ->
     In p (pricings s) \/
     (priced p = o /\ In (under p) (gridPointMarkets today base) /\
      qRate (under p) = q)) /\
  (List.length (pricings s') <= 16 + List.length (pricings s))%nat /\
  qRate (market s') = q.
Proof.
  intros base s'.
  assert (Hwithin : within o today base s s').
  { subst s'.
    destruct (gridPoint_ends E o today u q r v s)
      as [(s1 & -> & Hw & _)|[(s1 & -> & Hw)|(s1 & -> & Hw)]];
      try exact Hw.
    destruct (compare_keeps E o u q r today v s1) as (Hm & Hp & _).
    unfold within. rewrite Hm, Hp. exact Hw. }
  destruct Hwithin as (Hreq & Hlen & Hq).
  repeat split; try assumption.
  intros p Hp. destruct (Hreq p Hp) as [Hold|[Ho Hin]]; [left; exact Hold|].
  right. repeat split; try assumption.
  apply (gridPointMarkets_qRate today base). exact Hin.
Qed.

(** ** Reports *)

Lemma index_find (k : string) (m : StdMap.t) :
  StdMap.find k (snd (StdMap.index k m)) = Some (fst (StdMap.index k m)).
Proof.
  unfold StdMap.index. destruct (StdMap.find k m) eqn:Hk; cbn [fst snd].
  - exact Hk.
  - apply find_assign_same.
Qed.

Lemma compareGreek_report (E : Externals) (o : DividendVanillaOption)
    (u : Real) (q r : Rate) (today : Date) (v : Volatility) (greek : string)
    (s : TestState) (f : Failure) :
  fst (compareGreek E o u q r today v greek s) = BoostFail f ->
  faithfulReport E o u q r today v f
                 (snd (compareGreek E o u q r today v greek s)).
Proof.
  unfold compareGreek, expected_index, calculated_index, tolerance_index,
         bind, REPORT_FAILURE, BOOST_FAIL, ret.
  pose proof (index_find greek (expected s)) as He.
  pose proof (index_find greek (calculated s)) as Hc.
  pose proof (index_find greek (tolerance s)) as Ht.
  destruct (StdMap.index greek (expected s)) as [expct e']; simpl in *.
  destruct (StdMap.index greek (calculated s)) as [calcl c']; simpl in *.
  destruct (StdMap.index greek (tolerance s)) as [tol t']; simpl in *.
  destruct (tol <? relativeError E expct calcl u) eqn:Hexceeds;
    simpl; intros Hf; [|discriminate Hf].
  injection Hf as <-. unfold faithfulReport. simpl.
  repeat split; assumption.
Qed.

(** A loop reports what one of its iterations reports. *)
Lemma forM__report (A : Type) (body : A -> M unit) (l : list A)
    (P : Failure -> TestState -> Prop) :
  (forall x s f, fst (body x s) = BoostFail f -> P f (snd (body x s))) ->
  forall s f, fst (forM_ l body s) = BoostFail f ->
              P f (snd (forM_ l body s)).
Proof.
  intros Hbody. induction l as [|x l IH]; intros s f.
  - discriminate.
  - rewrite forM__cons. specialize (Hbody x s).
    destruct (body x s) as [[[]|f0| |] s1]; cbn [fst snd] in *;
      try discriminate.
    + apply IH.
    + intros Hf. injection Hf as <-. apply Hbody. reflexivity.
Qed.

Lemma compare_report (E : Externals) (o : DividendVanillaOption)
    (u : Real) (q r : Rate) (today : Date) (v : Volatility)
    (s : TestState) (f : Failure) :
  fst (compare E o u q r today v s) = BoostFail f ->
  faithfulReport E o u q r today v f (snd (compare E o u q r today v s)).
Proof.
  unfold compare, calculated_keys, bind.
  apply (forM__report _ _ _ (faithfulReport E o u q r today v)).
  intros greek s0 f0. apply compareGreek_report.
Qed.

(** X2.  Whatever the engine and the store, a failure a grid point
    reports is faithful: it carries the option type, strike, maturity,
    spot, rates, date and volatility of that grid point; its expected,
    calculated and tolerance values are the entries the three maps hold
    for the reported Greek; its error is their relative error with the
    spot as reference; and that error is above the tolerance, so it is
    never not-a-number. *)
Theorem reported_failure_is_faithful
    (E : Externals) (o : DividendVanillaOption) (today : Date)
    (u : Real) (q r : Rate) (v : Volatility) (s : TestState) (f : Failure) :
  fst (gridPoint E o today u q r v s) = BoostFail f ->
  let s' := snd (gridPoint E o today u q r v s) in
  (f_optionType f = optionType (payoff o) /\
   f_strike f = strike (payoff o) /\
   f_maturity f = lastDate o /\
   f_spot f = u /\
   f_dividendYield f = q /\
   f_riskFreeRate f = r /\
   f_referenceDate f = today /\
   f_volatility f = v /\
   StdMap.find (f_greekName f) (expected s') = Some (f_expected f) /\
   StdMap.find (f_greekName f) (calculated s') = Some (f_calculated f) /\
   StdMap.find (f_greekName f) (tolerance s') = Some (f_tolerance f) /\
   f_error f = relativeError E (f_expected f) (f_calculated f) u /\
   (f_tolerance f <? f_error f) = true) /\
  is_nan (f_error f) = false.
Proof.
  intros Hf s'.
  assert (Hreport : faithfulReport E o u q r today v f s').
  { subst s'.
    destruct (gridPoint_ends E o today u q r v s)
      as [(s1 & Hrun & _)|[(s1 & Hrun & _)|(s1 & Hrun & _)]];
      rewrite Hrun in *; try discriminate Hf.
    apply compare_report. exact Hf. }
  split; [exact Hreport|].
  destruct Hreport as (_ & _ & _ & _ & _ & _ & _ & _ & _ & _ & _ & _ & Habove).
  destruct (is_nan (f_error f)) eqn:Hnan; [|reflexivity].
  rewrite (ltb_nan_r _ _ Hnan) in Habove. discriminate Habove.
Qed.

Lemma reported_failure_is_faithful_witness :
  let E := Example.env (Example.total Example.wrongGreeks) in
  let o := Example.call100 in
  let f := mkFailure Option.Call 100 100 0.1 0.05 38000%Z 38360%Z 0.2
                     "delta" 1.0000000000001563 0 0.010000000000001563
                     1.0e-5 in
  let s' := snd (gridPoint E o 38000%Z 100 0.1 0.05 0.2 Example.fresh) in
  (f_optionType f = optionType (payoff o) /\
   f_strike f = strike (payoff o) /\
   f_maturity f = lastDate o /\
   f_spot f = 100 /\
   f_dividendYield f = 0.1 /\
   f_riskFreeRate f = 0.05 /\
   f_referenceDate f = 38000%Z /\
   f_volatility f = 0.2 /\
   StdMap.find (f_greekName f) (expected s') = Some (f_expected f) /\
   StdMap.find (f_greekName f) (calculated s') = Some (f_calculated f) /\
   StdMap.find (f_greekName f) (tolerance s') = Some (f_tolerance f) /\
   f_error f = relativeError E (f_expected f) (f_calculated f) 100 /\
   (f_tolerance f <? f_error f) = true) /\
  is_nan (f_error f) = false.
Proof.
  apply (reported_failure_is_faithful
           (Example.env (Example.total Example.wrongGreeks))
           Example.call100 38000%Z 100 0.1 0.05 0.2 Example.fresh).
  vm_compute. reflexivity.
Defined.

(** ** Not-a-number and zero at a grid point *)

(** X3.  A base value that is not a number fails the guard: the grid
    point is skipped without any probe, comparison or report. *)
Theorem nan_value_is_skipped
    (E : Externals) (eng : DividendVanillaOption -> MarketState -> Results)
    (o : DividendVanillaOption) (today : Date)
    (u : Real) (q r : Rate) (v : Volatility) (s : TestState) :
  let base := mkMarket u q r v (evaluationDate (market s)) in
  pricedBy E eng o (gridPointMarkets today base) ->
  is_nan (value_ (eng o base)) = true ->
  let run := gridPoint E o today u q r v s in
  fst run = Normal tt /\
  pricings (snd run) = analyticRequests o base ++ pricings s /\
  expected (snd run) = expected s.
Proof.
  intros base Hpriced Hnan run. subst run.
  rewrite (gridPoint_run E eng o today u q r v s Hpriced).
  fold base. rewrite (ltb_nan_r _ _ Hnan).
  repeat split; reflexivity.
Qed.

Lemma nan_value_is_skipped_witness :
  let E := Example.env (Example.total Broken.nanValue) in
  let base := mkMarket 100 0.1 0.05 0.2 38000%Z in
  let run := gridPoint E Example.call100 38000%Z 100 0.1 0.05 0.2
                       Example.fresh in
  fst run = Normal tt /\
  pricings (snd run) =
    analyticRequests Example.call100 base ++ pricings Example.fresh /\
  expected (snd run) = expected Example.fresh.
Proof.
  apply (nan_value_is_skipped
           (Example.env (Example.total Broken.nanValue)) Broken.nanValue
           Example.call100 38000%Z 100 0.1 0.05 0.2 Example.fresh).
  - intros m _. reflexivity.
  - reflexivity.
Defined.








(** ** The sweep, grid point by grid point *)

Lemma visited_afterAnalytic
    (eng : DividendVanillaOption -> MarketState -> Results)
    (o : DividendVanillaOption) (base : MarketState) (s : TestState) :
  visited (afterAnalytic eng o base s) = visited s ++ [(o, base)].
Proof.
  unfold visited, gridPointsPriced, afterAnalytic. simpl_store.
  rewrite List.filter_app. reflexivity.
Qed.

Lemma visited_afterProbes (E : Externals)
    (eng : DividendVanillaOption -> MarketState -> Results)
    (o : DividendVanillaOption) (today : Date) (base : MarketState)
    (s : TestState) :
  visited (afterProbes E eng o today base s) = visited s.
Proof.
  unfold visited, gridPointsPriced, afterProbes. simpl_store.
  rewrite List.filter_app. reflexivity.
Qed.

Lemma failureOf_reportedAt (E : Externals) (o : DividendVanillaOption)
    (today : Date) (u : Real) (q r : Rate) (v : Volatility)
    (c : string * Real * Real) :
  reportedAt (failureOf E o today (mkMarket u q r v today) c)
             (o, mkMarket u q r v today).
Proof.
  destruct c as [[greek expct] calcl]. unfold reportedAt, failureOf.
  cbn. repeat split; reflexivity.
Qed.

(** A grid point the engine prices takes a store of the sweep to the
    next one, or reports a failure that names it; it does not end in
    any other way. *)
Lemma gridPoint_strict (E : Externals)
    (eng : DividendVanillaOption -> MarketState -> Results)
    (o : DividendVanillaOption) (today : Date)
    (u : Real) (q r : Rate) (v : Volatility)
    (done : list (DividendVanillaOption * MarketState)) :
  pricedBy E eng o (gridPointMarkets today (mkMarket u q r v today)) ->
  strictTriple (sweepingThrough today done) (gridPoint E o today u q r v)
    (sweepingThrough today (done ++ [(o, mkMarket u q r v today)]))
    (stoppedIn done [(o, mkMarket u q r v today)]).
Proof.
  intros Hpriced s (Hs & Hvisited & Hcount).
  pose proof (gridPoint_triple E eng o today u q r v
                (List.length (gridPointsPriced s)) Hpriced s
                (conj Hs eq_refl)) as Hnext.
  rewrite (gridPoint_outcome E eng o today u q r v s Hpriced Hs) in *.
  assert (Hanalytic :
    visited (afterAnalytic eng o (mkMarket u q r v today) s) =
    done ++ [(o, mkMarket u q r v today)])
    by (rewrite visited_afterAnalytic, Hvisited; reflexivity).
  destruct (u * 1.0e-5 <? _).
  - destruct (List.find _ _) as [c|].
    + exists [], (o, mkMarket u q r v today), [].
      split; [reflexivity|split].
      * rewrite visited_afterProbes. exact Hanalytic.
      * apply failureOf_reportedAt.
    + destruct Hnext as [Hsweeping _].
      split; [exact Hsweeping|]. split.
      * rewrite visited_afterProbes. exact Hanalytic.
      * unfold afterProbes, afterAnalytic. simpl_store.
        rewrite !List.length_app.
        cbn [List.length analyticRequests List.map probeRequests]. lia.
  - destruct Hnext as [Hsweeping _].
    split; [exact Hsweeping|]. split; [exact Hanalytic|].
    unfold afterAnalytic. simpl_store.
    rewrite !List.length_app. cbn [List.length analyticRequests List.map]. lia.
Qed.

(** A loop over [l] whose body goes through the grid points [g x]. *)
Lemma forM__strict (A : Type) (today : Date) (body : A -> M unit)
    (g : A -> list (DividendVanillaOption * MarketState)) (l : list A) :
  (forall x done, In x l ->
     strictTriple (sweepingThrough today done) (body x)
                  (sweepingThrough today (done ++ g x))
                  (stoppedIn done (g x))) ->
  forall done,
    strictTriple (sweepingThrough today done) (forM_ l body)
                 (sweepingThrough today (done ++ List.flat_map g l))
                 (stoppedIn done (List.flat_map g l)).
Proof.
  induction l as [|x l IH]; intros Hbody done s Hs.
  - cbn [forM_ ret List.flat_map]. rewrite List.app_nil_r. exact Hs.
  - rewrite forM__cons. cbn [List.flat_map].
    pose proof (Hbody x done (or_introl eq_refl) s Hs) as Hx.
    destruct (body x s) as [[[]|f| |] s1]; try contradiction.
    + assert (Hrest : forall y done', In y l ->
                strictTriple (sweepingThrough today done') (body y)
                             (sweepingThrough today (done' ++ g y))
                             (stoppedIn done' (g y)))
        by (intros y done' Hy; apply Hbody; right; exact Hy).
      specialize (IH Hrest (done ++ g x) s1 Hx).
      destruct (forM_ l body s1) as [[[]|f| |] s2]; try contradiction.
      * rewrite List.app_assoc. exact IH.
      * destruct IH as (pre & pt & post & Htodo & Hvisited & Hreport).
        exists (g x ++ pre), pt, post. split; [|split].
        -- rewrite Htodo, List.app_assoc. reflexivity.
        -- rewrite Hvisited, <- !List.app_assoc. reflexivity.
        -- exact Hreport.
    + destruct Hx as (pre & pt & post & Htodo & Hvisited & Hreport).
      exists pre, pt, (post ++ List.flat_map g l). split; [|split].
      * rewrite Htodo, <- List.app_assoc. reflexivity.
      * exact Hvisited.
      * exact Hreport.
Qed.

Lemma flat_map_length_const (A B : Type) (g : A -> list B) (n : nat)
    (l : list A) :
  (forall x, In x l -> List.length (g x) = n) ->
  List.length (List.flat_map g l) = (List.length l * n)%nat.
Proof.
  induction l as [|x l IH]; intros Hg; [reflexivity|].
  cbn [List.flat_map List.length]. rewrite List.length_app, IH, Hg.
  - reflexivity.
  - left. reflexivity.
  - intros y Hy. apply Hg. right. exact Hy.
Qed.

Section Coverage.

Context (E : Externals)
        (eng : DividendVanillaOption -> MarketState -> Results)
        (Hlater : forall (d : Date) (n : Integer),
                    (0 < n)%Z -> (d < plusMonths E d n)%Z)
        (Hgrid : pricesTheGrid E eng).

Let today : Date := todaysDate E.

Lemma marketLoops_strict (type : Option.Type_) (strike_ : Real)
    (length_ : Integer) (dates : list Date) (amounts : list Real)
    (done : list (DividendVanillaOption * MarketState)) :
  In type types -> In strike_ strikes -> In length_ lengths ->
  let exDate := (today + length_ * dayCounterBase E)%Z in
  let o := mkOption (mkPayoff type strike_) exDate dates amounts in
  dividendSchedule E today exDate = Some (dates, amounts) ->
  strictTriple (sweepingThrough today done) (marketLoops E o today)
               (sweepingThrough today (done ++ marketGrid o today))
               (stoppedIn done (marketGrid o today)).
Proof.
  intros Htype Hstrike Hlength exDate o Hschedule.
  unfold marketLoops, marketGrid.
  apply forM__strict. intros u done1 Hu.
  apply forM__strict. intros q done2 Hq.
  apply forM__strict. intros r done3 Hr.
  apply (forM__strict _ today _ (fun v => [(o, mkMarket u q r v today)]) vols).
  intros v done4 Hv.
  apply (gridPoint_strict E eng).
  apply Hgrid; assumption.
Qed.

Lemma optionLoopBody_strict (type : Option.Type_) (strike_ : Real)
    (length_ : Integer)
    (done : list (DividendVanillaOption * MarketState)) :
  In type types -> In strike_ strikes -> In length_ lengths ->
  strictTriple (sweepingThrough today done)
               (optionLoopBody E today type strike_ length_)
               (sweepingThrough today
                  (done ++ optionGrid E today type strike_ length_))
               (stoppedIn done (optionGrid E today type strike_ length_)).
Proof.
  intros Htype Hstrike Hlength.
  unfold optionLoopBody, optionGrid.
  destruct (dividendSchedule_spec E today
              (today + length_ * dayCounterBase E)%Z Hlater)
    as (n & Hschedule & _).
  rewrite Hschedule.
  apply marketLoops_strict; assumption.
Qed.

Lemma optionGrid_length (type : Option.Type_) (strike_ : Real)
    (length_ : Integer) :
  List.length (optionGrid E today type strike_ length_) = 27%nat.
Proof.
  unfold optionGrid.
  destruct (dividendSchedule_spec E today
              (today + length_ * dayCounterBase E)%Z Hlater)
    as (n & Hschedule & _).
  rewrite Hschedule. reflexivity.
Qed.

Lemma testGrid_length : List.length (testGrid E) = 540%nat.
Proof.
  unfold testGrid.
  rewrite (flat_map_length_const _ _ _ 270); [reflexivity|]. intros type _.
  rewrite (flat_map_length_const _ _ _ 54); [reflexivity|]. intros strike_ _.
  rewrite (flat_map_length_const _ _ _ 27); [reflexivity|]. intros length_ _.
  apply optionGrid_length.
Qed.

(** The test goes through its grid in order and ends by completing or
    by a failure. *)
Lemma testBody_strict :
  match testBody E initialState with
  | (Normal _, s') => sweepingThrough today (testGrid E) s'
  | (BoostFail f, s') => stoppedIn [] (testGrid E) f s'
  | (EngineError, _) => False
  | (Diverges, _) => False
  end.
Proof.
  rewrite testBody_start.
  assert (Hloops :
    strictTriple (sweepingThrough today [])
      (forM_ types (fun type =>
       forM_ strikes (fun strike_ =>
       forM_ lengths (fun length_ =>
         optionLoopBody E today type strike_ length_))))
      (sweepingThrough today ([] ++ testGrid E))
      (stoppedIn [] (testGrid E))).
  { unfold testGrid. fold today.
    apply forM__strict. intros type done1 Htype.
    apply forM__strict. intros strike_ done2 Hstrike.
    apply forM__strict. intros length_ done3 Hlength.
    apply optionLoopBody_strict; assumption. }
  assert (Hpre : sweepingThrough today []
                   (mkState (mkMarket 0 0 0 0 today) [] [] tolerances [])).
  { split; [|split; [reflexivity|cbn; lia]].
    repeat split; try reflexivity; left; reflexivity. }
  specialize (Hloops _ Hpre).
  fold today.
  destruct (forM_ types _ _) as [[[]|f| |] s']; exact Hloops.
Qed.

End Coverage.

(** ** The first violation *)

Lemma find_none_existsb (A : Type) (f : A -> bool) (l : list A) :
  List.find f l = None -> List.existsb f l = false.
Proof.
  induction l as [|x l IH]; cbn; [reflexivity|].
  destruct (f x); [discriminate|exact IH].
Qed.

Lemma find_some_existsb (A : Type) (f : A -> bool) (l : list A) (x : A) :
  List.find f l = Some x -> List.existsb f l = true.
Proof.
  induction l as [|y l IH]; cbn; [discriminate|].
  destruct (f y); [reflexivity|exact IH].
Qed.

Lemma find_first (A : Type) (f : A -> bool) (pre post : list A) (x : A) :
  (forall y, In y pre -> f y = false) ->
  f x = true ->
  List.find f (pre ++ x :: post) = Some x.
Proof.
  induction pre as [|y pre IH]; intros Hpre Hx; cbn.
  - now rewrite Hx.
  - rewrite (Hpre y (or_introl eq_refl)).
    apply IH; [|exact Hx]. intros z Hz. apply Hpre. right. exact Hz.
Qed.

Lemma find_clean (A : Type) (f : A -> bool) (l : list A) :
  (forall y, In y l -> f y = false) -> List.find f l = None.
Proof.
  induction l as [|y l IH]; intros Hl; cbn; [reflexivity|].
  rewrite (Hl y (or_introl eq_refl)).
  apply IH. intros z Hz. apply Hl. right. exact Hz.
Qed.

(** A grid point the engine prices either has no Greek out of tolerance
    and completes, or reports its first Greek out of tolerance. *)
Lemma gridPoint_first (E : Externals)
    (eng : DividendVanillaOption -> MarketState -> Results)
    (o : DividendVanillaOption) (today : Date)
    (u : Real) (q r : Rate) (v : Volatility)
    (done : list (DividendVanillaOption * MarketState)) :
  pricedBy E eng o (gridPointMarkets today (mkMarket u q r v today)) ->
  strictTriple (cleanThrough E eng today done) (gridPoint E o today u q r v)
    (cleanThrough E eng today (done ++ [(o, mkMarket u q r v today)]))
    (firstViolation E eng today done [(o, mkMarket u q r v today)]).
Proof.
  intros Hpriced s (Hthrough & Hclean).
  pose proof (gridPoint_strict E eng o today u q r v done Hpriced s Hthrough)
    as Hstrict.
  destruct Hthrough as (Hs & Hvisited & _).
  rewrite (gridPoint_outcome E eng o today u q r v s Hpriced Hs) in *.
  assert (Hpt : violates E eng today (o, mkMarket u q r v today) =
                (u * 1.0e-5 <? value_ (eng o (mkMarket u q r v today)))
                && List.existsb (exceeds E u)
                     (checks E eng o today (mkMarket u q r v today)))
    by reflexivity.
  destruct (u * 1.0e-5 <? _) eqn:Hguard.
  - destruct (List.find _ _) as [c|] eqn:Hfind.
    + exists [], (o, mkMarket u q r v today), [], c.
      split; [reflexivity|]. split; [intros p []|].
      split; [rewrite Hpt, (find_some_existsb _ _ _ _ Hfind); reflexivity|].
      split; [exact Hfind|]. split; [reflexivity|].
      rewrite visited_afterProbes, visited_afterAnalytic, Hvisited.
      reflexivity.
    + split; [exact Hstrict|].
      intros pt Hin. apply List.in_app_or in Hin.
      destruct Hin as [Hin|[<-|[]]]; [apply Hclean; exact Hin|].
      rewrite Hpt, (find_none_existsb _ _ _ Hfind). reflexivity.
  - split; [exact Hstrict|].
    intros pt Hin. apply List.in_app_or in Hin.
    destruct Hin as [Hin|[<-|[]]]; [apply Hclean; exact Hin|].
    rewrite Hpt. reflexivity.
Qed.

(** A loop over [l] stops at the first grid point of its iterations
    that has a Greek out of tolerance. *)
Lemma forM__first (A : Type) (E : Externals)
    (eng : DividendVanillaOption -> MarketState -> Results) (today : Date)
    (body : A -> M unit)
    (g : A -> list (DividendVanillaOption * MarketState)) (l : list A) :
  (forall x done, In x l ->
     strictTriple (cleanThrough E eng today done) (body x)
                  (cleanThrough E eng today (done ++ g x))
                  (firstViolation E eng today done (g x))) ->
  forall done,
    strictTriple (cleanThrough E eng today done) (forM_ l body)
                 (cleanThrough E eng today (done ++ List.flat_map g l))
                 (firstViolation E eng today done (List.flat_map g l)).
Proof.
  induction l as [|x l IH]; intros Hbody done s Hs.
  - cbn [forM_ ret List.flat_map]. rewrite List.app_nil_r. exact Hs.
  - rewrite forM__cons. cbn [List.flat_map].
    pose proof (Hbody x done (or_introl eq_refl) s Hs) as Hx.
    destruct (body x s) as [[[]|f| |] s1]; try contradiction.
    + assert (Hrest : forall y done', In y l ->
                strictTriple (cleanThrough E eng today done') (body y)
                             (cleanThrough E eng today (done' ++ g y))
                             (firstViolation E eng today done' (g y)))
        by (intros y done' Hy; apply Hbody; right; exact Hy).
      specialize (IH Hrest (done ++ g x) s1 Hx).
      destruct (forM_ l body s1) as [[[]|f| |] s2]; try contradiction.
      * rewrite List.app_assoc. exact IH.
      * destruct IH as (pre & pt & post & c & Htodo & Hpre & Hpt & Hfind
                        & Hf & Hvisited).
        exists (g x ++ pre), pt, post, c.
        split; [rewrite Htodo, List.app_assoc; reflexivity|].
        split.
        { intros p Hp. apply List.in_app_or in Hp.
          destruct Hp as [Hp|Hp]; [|apply Hpre; exact Hp].
          destruct Hx as [_ Hclean]. apply Hclean.
          apply List.in_or_app. right. exact Hp. }
        split; [exact Hpt|]. split; [exact Hfind|]. split; [exact Hf|].
        rewrite Hvisited, <- !List.app_assoc. reflexivity.
    + destruct Hx as (pre & pt & post & c & Htodo & Hpre & Hpt & Hfind
                      & Hf & Hvisited).
      exists pre, pt, (post ++ List.flat_map g l), c.
      split; [rewrite Htodo, <- List.app_assoc; reflexivity|].
      split; [exact Hpre|]. split; [exact Hpt|]. split; [exact Hfind|].
      split; [exact Hf|exact Hvisited].
Qed.

Section FirstViolation.

Context (E : Externals)
        (eng : DividendVanillaOption -> MarketState -> Results)
        (Hlater : forall (d : Date) (n : Integer),
                    (0 < n)%Z -> (d < plusMonths E d n)%Z)
        (Hgrid : pricesTheGrid E eng).

Let today : Date := todaysDate E.

Lemma marketLoops_first (type : Option.Type_) (strike_ : Real)
    (length_ : Integer) (dates : list Date) (amounts : list Real)
    (done : list (DividendVanillaOption * MarketState)) :
  In type types -> In strike_ strikes -> In length_ lengths ->
  let exDate := (today + length_ * dayCounterBase E)%Z in
  let o := mkOption (mkPayoff type strike_) exDate dates amounts in
  dividendSchedule E today exDate = Some (dates, amounts) ->
  strictTriple (cleanThrough E eng today done) (marketLoops E o today)
               (cleanThrough E eng today (done ++ marketGrid o today))
               (firstViolation E eng today done (marketGrid o today)).
Proof.
  intros Htype Hstrike Hlength exDate o Hschedule.
  unfold marketLoops, marketGrid.
  apply forM__first. intros u done1 Hu.
  apply forM__first. intros q done2 Hq.
  apply forM__first. intros r done3 Hr.
  apply (forM__first _ E eng today _
           (fun v => [(o, mkMarket u q r v today)]) vols).
  intros v done4 Hv.
  apply gridPoint_first.
  apply Hgrid; assumption.
Qed.

Lemma optionLoopBody_first (type : Option.Type_) (strike_ : Real)
    (length_ : Integer)
    (done : list (DividendVanillaOption * MarketState)) :
  In type types -> In strike_ strikes -> In length_ lengths ->
  strictTriple (cleanThrough E eng today done)
               (optionLoopBody E today type strike_ length_)
               (cleanThrough E eng today
                  (done ++ optionGrid E today type strike_ length_))
               (firstViolation E eng today done
                  (optionGrid E today type strike_ length_)).
Proof.
  intros Htype Hstrike Hlength.
  unfold optionLoopBody, optionGrid.
  destruct (dividendSchedule_spec E today
              (today + length_ * dayCounterBase E)%Z Hlater)
    as (n & Hschedule & _).
  rewrite Hschedule.
  apply marketLoops_first; assumption.
Qed.

(** The body of the test stops at the first grid point, in loop order,
    that has a Greek out of tolerance, and completes when there is
    none. *)
Lemma testBody_first :
  match testBody E initialState with
  | (Normal _, s') => cleanThrough E eng today (testGrid E) s'
  | (BoostFail f, s') => firstViolation E eng today [] (testGrid E) f s'
  | (EngineError, _) => False
  | (Diverges, _) => False
  end.
Proof.
  rewrite testBody_start.
  assert (Hloops :
    strictTriple (cleanThrough E eng today [])
      (forM_ types (fun type =>
       forM_ strikes (fun strike_ =>
       forM_ lengths (fun length_ =>
         optionLoopBody E today type strike_ length_))))
      (cleanThrough E eng today ([] ++ testGrid E))
      (firstViolation E eng today [] (testGrid E))).
  { unfold testGrid. fold today.
    apply forM__first. intros type done1 Htype.
    apply forM__first. intros strike_ done2 Hstrike.
    apply forM__first. intros length_ done3 Hlength.
    apply optionLoopBody_first; assumption. }
  assert (Hpre : cleanThrough E eng today []
                   (mkState (mkMarket 0 0 0 0 today) [] [] tolerances [])).
  { split; [|intros pt []].
    split; [|split; [reflexivity|cbn; lia]].
    repeat split; try reflexivity; left; reflexivity. }
  specialize (Hloops _ Hpre).
  fold today.
  destruct (forM_ types _ _) as [[[]|f| |] s']; exact Hloops.
Qed.

End FirstViolation.

(** C2, as amended.  A tolerance violation is reported with the option
    type, the strike, the spot, the two rates, the reference and
    maturity dates, the volatility, the name of the Greek, the expected
    and calculated values, the error and the tolerance, and it ends the
    test.  When some grid point has a Greek out of tolerance, the test
    is ended by the failure of the first such grid point in loop order,
    reporting its first Greek out of tolerance in key order; the grid
    points priced are those up to that one, and no later grid point is
    priced.  The test completes, having priced its whole grid of 540
    points, exactly when no grid point has a Greek out of tolerance. *)
Theorem first_violation_ends_the_sweep
    (E : Externals) (eng : DividendVanillaOption -> MarketState -> Results) :
  (forall (d : Date) (n : Integer), (0 < n)%Z -> (d < plusMonths E d n)%Z) ->
  pricesTheGrid E eng ->
  let today := todaysDate E in
  let run := testGreeks E initialState in
  List.length (testGrid E) = 540%nat /\
  match List.find (violates E eng today) (testGrid E) with
  | Some (o, base) =>
      exists pre post greek expct calcl,
        testGrid E = pre ++ (o, base) :: post /\
        (forall pt, In pt pre -> violates E eng today pt = false) /\
        List.find (fun '(_, e, c) => 1.0e-5 <? relativeError E e c (spot base))
                  (checks E eng o today base) = Some (greek, expct, calcl) /\
        fst run =
          BoostFail
            (mkFailure (optionType (payoff o)) (spot base) (strike (payoff o))
                       (qRate base) (rRate base) today (lastDate o) (vol base)
                       greek expct calcl
                       (relativeError E expct calcl (spot base)) 1.0e-5) /\
        visited (snd run) = pre ++ [(o, base)]
  | None =>
      fst run = Normal tt /\ visited (snd run) = testGrid E
  end.
Proof.
  intros Hlater Hgrid today run.
  split; [apply (testGrid_length E Hlater)|].
  pose proof (testBody_first E eng Hlater Hgrid) as Hfirst.
  fold today in Hfirst. subst run.
  rewrite testGreeks_outcome, testGreeks_visited.
  destruct (testBody E initialState) as [[[]|f| |] s']; cbn [fst snd];
    try contradiction.
  - destruct Hfirst as ((_ & Hvisited & _) & Hclean).
    rewrite (find_clean _ _ _ Hclean). split; [reflexivity|exact Hvisited].
  - destruct Hfirst as (pre & [o base] & post & [[greek expct] calcl]
                        & Htodo & Hpre & Hpt & Hfind & Hf & Hvisited).
    assert (Hfound : List.find (violates E eng today) (testGrid E) =
                     Some (o, base))
      by (rewrite Htodo; apply find_first; assumption).
    rewrite Hfound.
    exists pre, post, greek, expct, calcl.
    split; [exact Htodo|]. split; [exact Hpre|].
    split; [exact Hfind|]. split; [rewrite Hf; reflexivity|exact Hvisited].
Qed.

Lemma first_violation_ends_the_sweep_witness :
  let E := Example.env (Example.total Example.wrongGreeks) in
  let eng := Example.wrongGreeks in
  let today := todaysDate E in
  let run := testGreeks E initialState in
  List.length (testGrid E) = 540%nat /\
  match List.find (violates E eng today) (testGrid E) with
  | Some (o, base) =>
      exists pre post greek expct calcl,
        testGrid E = pre ++ (o, base) :: post /\
        (forall pt, In pt pre -> violates E eng today pt = false) /\
        List.find (fun '(_, e, c) => 1.0e-5 <? relativeError E e c (spot base))
                  (checks E eng o today base) = Some (greek, expct, calcl) /\
        fst run =
          BoostFail
            (mkFailure (optionType (payoff o)) (spot base) (strike (payoff o))
                       (qRate base) (rRate base) today (lastDate o) (vol base)
                       greek expct calcl
                       (relativeError E expct calcl (spot base)) 1.0e-5) /\
        visited (snd run) = pre ++ [(o, base)]
  | None =>
      fst run = Normal tt /\ visited (snd run) = testGrid E
  end.
Proof.
  apply (first_violation_ends_the_sweep
           (Example.env (Example.total Example.wrongGreeks))
           Example.wrongGreeks).
  - intros d n Hn. cbn. unfold Example.thirtyDayMonths. lia.
  - unfold pricesTheGrid, pricedBy. intros. reflexivity.
Defined.

(** X5.  When adding months moves a date forward and the engine prices
    the grid, the test ends in one of two ways.  Either it completes:
    it has then priced the 540 grid points of its seven nested loops,
    each once and in loop order, with between 6 * 540 and 16 * 540
    pricing requests, and leaves the tolerances untouched.  Or a failure
    ends it: the grid points priced are then an initial part of the grid
    in loop order, and the failure names the last of them.  Either way
    [teardown] has run and the evaluation date is [Date()] again. *)
Theorem sweep_goes_through_grid_in_order
    (E : Externals) (eng : DividendVanillaOption -> MarketState -> Results) :
  (forall (d : Date) (n : Integer), (0 < n)%Z -> (d < plusMonths E d n)%Z) ->
  pricesTheGrid E eng ->
  let run := testGreeks E initialState in
  List.length (testGrid E) = 540%nat /\
  evaluationDate (market (snd run)) = nullDate /\
  ((fst run = Normal tt /\
    visited (snd run) = testGrid E /\
    (6 * 540 <= List.length (pricings (snd run)) <= 16 * 540)%nat /\
    tolerance (snd run) = tolerances) \/
   (exists f pre pt post,
      fst run = BoostFail f /\
      testGrid E = pre ++ pt :: post /\
      visited (snd run) = pre ++ [pt] /\
      reportedAt f pt)).
Proof.
  intros Hlater Hgrid run.
  pose proof (testGrid_length E Hlater) as Hlength.
  split; [exact Hlength|].
  pose proof (testBody_strict E eng Hlater Hgrid) as Hstrict.
  pose proof (testGreeks_outcome E initialState) as Hout.
  pose proof (testGreeks_visited E initialState) as Hvis.
  destruct (testGreeks_store E initialState) as (Hp & _ & _ & Ht & Hm).
  fold run in Hout, Hvis, Hp, Ht, Hm.
  rewrite Hout, Hvis, Hp, Ht.
  destruct (testBody E initialState) as [[[]|f| |] s']; cbn [fst snd] in *;
    try contradiction;
    (split; [rewrite Hm by discriminate; reflexivity|]).
  - left. destruct Hstrict as ((_ & Htol & _) & Hvisited & Hcount).
    rewrite Hlength in Hcount.
    repeat split; try assumption; lia.
  - right. destruct Hstrict as (pre & pt & post & Htodo & Hvisited & Hreport).
    exists f, pre, pt, post.
    split; [reflexivity|]. split; [exact Htodo|].
    split; [exact Hvisited|exact Hreport].
Qed.

Lemma sweep_goes_through_grid_in_order_witness :
  let E := Example.env (Example.total Example.smooth) in
  let run := testGreeks E initialState in
  List.length (testGrid E) = 540%nat /\
  evaluationDate (market (snd run)) = nullDate /\
  ((fst run = Normal tt /\
    visited (snd run) = testGrid E /\
    (6 * 540 <= List.length (pricings (snd run)) <= 16 * 540)%nat /\
    tolerance (snd run) = tolerances) \/
   (exists f pre pt post,
      fst run = BoostFail f /\
      testGrid E = pre ++ pt :: post /\
      visited (snd run) = pre ++ [pt] /\
      reportedAt f pt)).
Proof.
  apply (sweep_goes_through_grid_in_order
           (Example.env (Example.total Example.smooth)) Example.smooth).
  - intros d n Hn. cbn. unfold Example.thirtyDayMonths. lia.
  - unfold pricesTheGrid, pricedBy. intros. reflexivity.
Defined.

(** X6.  An engine whose five analytic Greeks are not numbers passes
    the test: with a [relativeError] that yields not-a-number for a
    calculated value that is not a number, no comparison [error > tol]
    holds, so no grid point reports and the test completes. *)
Theorem nan_greeks_pass_the_test
    (E : Externals) (eng : DividendVanillaOption -> MarketState -> Results) :
  (forall (d : Date) (n : Integer), (0 < n)%Z -> (d < plusMonths E d n)%Z) ->
  pricesTheGrid E eng ->
  (forall expct calcl reference,
     is_nan calcl = true ->
     is_nan (relativeError E expct calcl reference) = true) ->
  (forall o m,
     is_nan (delta_ (eng o m)) = true /\
     is_nan (gamma_ (eng o m)) = true /\
     is_nan (theta_ (eng o m)) = true /\
     is_nan (rho_ (eng o m)) = true /\
     is_nan (vega_ (eng o m)) = true) ->
  fst (testGreeks E initialState) = Normal tt.
Proof.
  intros Hlater Hgrid Herror Hnan.
  rewrite testGreeks_outcome.
  pose proof (testBody_strict E eng Hlater Hgrid) as Hstrict.
  pose proof (testBody_triple E eng Hgrid) as Htriple.
  destruct (testBody E initialState) as [[[]|f| |] s'];
    cbn [fst]; try contradiction; [reflexivity|].
  destruct Htriple as (o & base & s0 & c & _ & _ & Hfind & _).
  apply List.find_some in Hfind. destruct Hfind as [Hin Hexceeds].
  destruct (Hnan o base) as (Hd & Hg & Ht & Hr & Hv).
  unfold checks in Hin. cbn [In] in Hin.
  repeat (destruct Hin as [<-|Hin];
          [unfold exceeds in Hexceeds;
           rewrite ltb_nan_r in Hexceeds by (apply Herror; assumption);
           discriminate Hexceeds|]).
  destruct Hin.
Qed.

Lemma nan_greeks_pass_the_test_witness :
  fst (testGreeks (Example.env (Example.total Broken.nanGreeks)) initialState)
  = Normal tt.
Proof.
  apply (nan_greeks_pass_the_test
           (Example.env (Example.total Broken.nanGreeks)) Broken.nanGreeks).
  - intros d n Hn. cbn. unfold Example.thirtyDayMonths. lia.
  - unfold pricesTheGrid, pricedBy. intros. reflexivity.
  - intros expct calcl reference Hcalcl.
    apply Example_relativeError_nan. exact Hcalcl.
  - intros o m. repeat split; reflexivity.
Defined.

(** ** Engine exceptions *)

(** A loop throws what one of its iterations throws. *)
Lemma forM__throws (A : Type) (body : A -> M unit) (l : list A)
    (P : TestState -> Prop) :
  (forall x s s', body x s = (EngineError, s') -> P s') ->
  forall s s', forM_ l body s = (EngineError, s') -> P s'.
Proof.
  intros Hbody. induction l as [|x l IH]; intros s s'.
  - discriminate.
  - rewrite forM__cons.
    destruct (body x s) as [[[]|f| |] s1] eqn:Hx; try discriminate.
    + apply IH.
    + intros Hrun. injection Hrun as <-. apply (Hbody x s). exact Hx.
Qed.

(** The comparison makes no pricing request: it does not throw. *)
Lemma compare_never_throws (E : Externals) (o : DividendVanillaOption)
    (u : Real) (q r : Rate) (today : Date) (v : Volatility)
    (s s' : TestState) :
  compare E o u q r today v s <> (EngineError, s').
Proof.
  unfold compare, calculated_keys, bind. intros Hrun.
  apply (forM__throws _ _ _ (fun _ => False)) in Hrun; [exact Hrun|].
  intros greek s0 s1.
  unfold compareGreek, expected_index, calculated_index, tolerance_index,
         bind, REPORT_FAILURE, BOOST_FAIL, ret.
  destruct (StdMap.index greek (expected s0)) as [expct e']; simpl.
  destruct (StdMap.index greek (calculated s0)) as [calcl c']; simpl.
  destruct (StdMap.index greek (tolerance s0)) as [tol t']; simpl.
  destruct (tol <? relativeError E expct calcl u); discriminate.
Qed.

Lemma gridPoint_thrownAt (E : Externals) (o : DividendVanillaOption)
    (today : Date) (u : Real) (q r : Rate) (v : Volatility)
    (s s' : TestState) :
  gridPoint E o today u q r v s = (EngineError, s') -> thrownAt E s'.
Proof.
  intros Hrun.
  destruct (gridPoint_ends E o today u q r v s)
    as [(s1 & Hends & _ & Hthrown)|[(s1 & Hends & _)|(s1 & Hends & _)]];
    rewrite Hends in Hrun.
  - injection Hrun as <-. exact Hthrown.
  - discriminate Hrun.
  - apply compare_never_throws in Hrun. destruct Hrun.
Qed.

(** C7, as amended.  A probe restores the saved value exactly when its
    two pricing calls return.  When the engine throws at the first
    perturbed point, the probe ends there by the exception with the
    market data still at that point; when it throws at the second, with
    the market data at the second: in both cases the restoring write is
    not executed, no estimate is written, and the throwing request is
    the last one made.  When the engine throws at neither, the probe
    completes with the saved value written back.  A grid point that an
    engine exception ends is left in the same way: its last request is
    the one that threw and the market data are those of that request, so
    no later probe has run. *)
Theorem probe_restores_unless_pricing_throws
    (E : Externals) (o : DividendVanillaOption) (today : Date)
    (u : Real) (q r : Rate) (v : Volatility) (s : TestState) :
  let m := market s in
  (forall probe first second restored,
     In (probe, (first, second, restored))
        [ (perturbSpot E o u,
           (setSpot (u + u * 1.0e-4) m, setSpot (u - u * 1.0e-4) m,
            setSpot u m));
          (perturbRate E o r,
           (setRiskFreeRate (r + r * 1.0e-4) m,
            setRiskFreeRate (r - r * 1.0e-4) m,
            setRiskFreeRate r m));
          (perturbVol E o v,
           (setVolatility (v + v * 1.0e-4) m,
            setVolatility (v - v * 1.0e-4) m,
            setVolatility v m));
          (perturbDate E o today,
           (setDate (today - 1)%Z m, setDate (today + 1)%Z m,
            setDate today m)) ] ->
     let run := probe s in
     (engine E o first = None ->
        fst run = EngineError /\
        market (snd run) = first /\
        expected (snd run) = expected s /\
        pricings (snd run) = mkPricing QNPV o first :: pricings s) /\
     (engine E o first <> None -> engine E o second = None ->
        fst run = EngineError /\
        market (snd run) = second /\
        expected (snd run) = expected s /\
        exists rest, pricings (snd run) = mkPricing QNPV o second :: rest) /\
     (engine E o first <> None -> engine E o second <> None ->
        fst run = Normal tt /\
        market (snd run) = restored)) /\
  (let run := gridPoint E o today u q r v s in
   fst run = EngineError ->
   exists p rest,
     pricings (snd run) = p :: rest /\
     engine E (priced p) (under p) = None /\
     market (snd run) = under p).
Proof.
  intros m. split.
  - intros probe first second restored Hin run. subst run m.
    cbn [In] in Hin.
    destruct Hin as [Heq|[Heq|[Heq|[Heq|[]]]]];
      injection Heq as <- <- <- <-;
      [rewrite perturbSpot_run|rewrite perturbRate_run
      |rewrite perturbVol_run|rewrite perturbDate_run];
      cbv zeta;
      (split; [|split]);
      try (intros Hfirst; rewrite Hfirst; cbn [fst snd market expected pricings];
           repeat split; reflexivity);
      intros Hfirst Hsecond;
      match type of Hfirst with
      | engine E o ?first <> None =>
          destruct (engine E o first) as [res1|]; [|now destruct Hfirst]
      end;
      match type of Hsecond with
      | engine E o ?second = None => rewrite Hsecond
      | engine E o ?second <> None =>
          destruct (engine E o second) as [res2|]; [|now destruct Hsecond]
      end;
      cbn [fst snd market expected pricings];
      repeat split; try reflexivity; eexists; reflexivity.
  - intros run Hrun. subst run.
    apply (gridPoint_thrownAt E o today u q r v s).
    destruct (gridPoint E o today u q r v s) as [out s'].
    cbn [fst snd] in *. now subst out.
Qed.

Lemma probe_restores_unless_pricing_throws_witness :
  let E := Example.env Example.fragile in
  let s := mkState (mkMarket 100 0.1 0.05 0.2 38000%Z) [] [] tolerances [] in
  let bumped := setSpot (100 + 100 * 1.0e-4) (market s) in
  let run := perturbSpot E Example.call100 100 s in
  engine E Example.call100 bumped = None /\
  fst run = EngineError /\
  market (snd run) = bumped /\
  expected (snd run) = expected s /\
  pricings (snd run) = mkPricing QNPV Example.call100 bumped :: pricings s.
Proof.
  cbv zeta. split; [reflexivity|].
  destruct (probe_restores_unless_pricing_throws
              (Example.env Example.fragile) Example.call100 38000%Z
              100 0.1 0.05 0.2
              (mkState (mkMarket 100 0.1 0.05 0.2 38000%Z) [] [] tolerances []))
    as [Hprobes _].
  destruct (Hprobes _ _ _ _ (or_introl eq_refl)) as [Hfirst _].
  apply Hfirst. reflexivity.
Defined.

(** X7.  Whatever the engine, when the test is ended by an exception of
    the engine, nothing is restored but the evaluation date: the last
    request in the history is one the engine throws for, the four
    quotes still hold the values that request was priced under, and the
    evaluation date is [Date()], as [teardown] sets it on the way out. *)
Theorem engine_exception_leaves_store_at_throwing_request (E : Externals) :
  let run := testGreeks E initialState in
  fst run = EngineError ->
  exists p rest,
    pricings (snd run) = p :: rest /\
    engine E (priced p) (under p) = None /\
    market (snd run) = setDate nullDate (under p).
Proof.
  intros run Hrun. subst run.
  rewrite testGreeks_outcome in Hrun.
  destruct (testGreeks_store E initialState) as (Hp & _ & _ & _ & Hm).
  rewrite Hp, Hm by (rewrite Hrun; discriminate).
  assert (Hbody : forall s',
            testBody E initialState = (EngineError, s') -> thrownAt E s').
  { intros s'. rewrite testBody_start.
    apply forM__throws. intros type s0 s1.
    apply forM__throws. intros strike_ s2 s3.
    apply forM__throws. intros length_ s4 s5.
    unfold optionLoopBody.
    destruct (dividendSchedule E (todaysDate E) _) as [[dates amounts]|];
      [|discriminate].
    unfold marketLoops.
    apply forM__throws. intros u s6 s7.
    apply forM__throws. intros q s8 s9.
    apply forM__throws. intros r s10 s11.
    apply forM__throws. intros v s12 s13.
    apply gridPoint_thrownAt. }
  assert (Hthrown : thrownAt E (snd (testBody E initialState))).
  { apply Hbody.
    destruct (testBody E initialState) as [out s'].
    cbn [fst snd] in *. now subst out. }
  destruct Hthrown as (p & rest & Hpricings & Hnone & Hmarket).
  exists p, rest. rewrite Hmarket. repeat split; assumption.
Qed.

Lemma engine_exception_leaves_store_at_throwing_request_witness :
  let E := Example.env Example.fragile in
  let run := testGreeks E initialState in
  exists p rest,
    pricings (snd run) = p :: rest /\
    engine E (priced p) (under p) = None /\
    market (snd run) = setDate nullDate (under p).
Proof.
  apply (engine_exception_leaves_store_at_throwing_request
           (Example.env Example.fragile)).
  vm_compute. reflexivity.
Defined.

(** ** The maps in the sweep *)

(** X8.  In the sweep, a grid point the engine prices leaves the
    evaluation date at today and the tolerances as they were set, and
    the maps never gain a key: [calculated] holds exactly the five Greek
    names afterwards, and so does [expected] when the comparison ran
    (no read of the comparison inserts a default entry); when the grid
    point is skipped [expected] is not touched. *)
Theorem maps_hold_exactly_the_five_greeks
    (E : Externals) (eng : DividendVanillaOption -> MarketState -> Results)
    (o : DividendVanillaOption) (today : Date)
    (u : Real) (q r : Rate) (v : Volatility) (s : TestState) :
  sweeping today s ->
  let base := mkMarket u q r v today in
  pricedBy E eng o (gridPointMarkets today base) ->
  let s' := snd (gridPoint E o today u q r v s) in
  evaluationDate (market s') = today /\
  tolerance s' = tolerances /\
  StdMap.keys (calculated s') = greekNames /\
  (if u * 1.0e-5 <? value_ (eng o base)
   then StdMap.keys (expected s') = greekNames
   else expected s' = expected s).
Proof.
  intros Hs base Hpriced s'. subst s'.
  rewrite (gridPoint_outcome E eng o today u q r v s Hpriced Hs).
  destruct Hs as (Hdate & Htol & Hc & He). fold base.
  destruct (u * 1.0e-5 <? _); cbn [snd];
    unfold afterProbes, afterAnalytic; simpl_store;
    rewrite ?(calculated_filled _ _ _ _ _ _ Hc),
            ?(expected_filled _ _ _ _ _ _ He);
    repeat split; try reflexivity; exact Htol.
Qed.

Lemma maps_hold_exactly_the_five_greeks_witness :
  let E := Example.env (Example.total Example.smooth) in
  let base := mkMarket 100 0.1 0.05 0.2 38000%Z in
  let s' := snd (gridPoint E Example.call100 38000%Z 100 0.1 0.05 0.2
                           Example.fresh) in
  evaluationDate (market s') = 38000%Z /\
  tolerance s' = tolerances /\
  StdMap.keys (calculated s') = greekNames /\
  (if 100 * 1.0e-5 <? value_ (Example.smooth Example.call100 base)
   then StdMap.keys (expected s') = greekNames
   else expected s' = expected Example.fresh).
Proof.
  apply (maps_hold_exactly_the_five_greeks
           (Example.env (Example.total Example.smooth)) Example.smooth
           Example.call100 38000%Z 100 0.1 0.05 0.2 Example.fresh).
  - unfold sweeping, filled. cbn. auto.
  - intros m _. reflexivity.
Defined.

(** ** The dividend schedule, continued *)

Lemma nthDate_step (E : Externals) :
  (forall (d : Date) (n : Integer), (0 < n)%Z -> (d < plusMonths E d n)%Z) ->
  forall i d, (nthDate E d i < nthDate E d (S i))%Z.
Proof.
  intros Hlater. induction i as [|i IH]; intros d.
  - cbn [nthDate]. apply Hlater. lia.
  - change (nthDate E d (S (S i)))
      with (nthDate E (plusMonths E d 6%Z) (S i)).
    change (nthDate E d (S i)) with (nthDate E (plusMonths E d 6%Z) i).
    apply IH.
Qed.

Lemma nthDate_lt (E : Externals) :
  (forall (d : Date) (n : Integer), (0 < n)%Z -> (d < plusMonths E d n)%Z) ->
  forall i j d, (i < j)%nat -> (nthDate E d i < nthDate E d j)%Z.
Proof.
  intros Hlater i j d Hij.
  pose proof (nthDate_step E Hlater i d).
  pose proof (nthDate_mono E Hlater (S i) d j Hij). lia.
Qed.

(** Both vectors of the loop grow together, whatever the date
    arithmetic. *)
Lemma dividendLoop_lengths (E : Externals) (exDate : Date) (bound : nat) :
  forall d dates amounts,
    dividendLoop E bound d exDate = Some (dates, amounts) ->
    List.length amounts = List.length dates /\
    (forall a, In a amounts -> a = 5.0).
Proof.
  induction bound as [|bound IH]; intros d dates amounts; cbn [dividendLoop];
    destruct (d <? exDate)%Z; try discriminate.
  - intros Hrun. injection Hrun as <- <-. split; [reflexivity|]. intros a [].
  - destruct (dividendLoop E bound (plusMonths E d 6%Z) exDate)
      as [[dates' amounts']|] eqn:Hrest; [|discriminate].
    intros Hrun. injection Hrun as <- <-.
    destruct (IH _ _ _ Hrest) as [Hlen Hfive].
    split; [cbn [List.length]; now rewrite Hlen|].
    intros a [<-|Ha]; [reflexivity|apply Hfive; exact Ha].
  - intros Hrun. injection Hrun as <- <-. split; [reflexivity|]. intros a [].
Qed.

(** X9.  When adding months moves a date forward, the dividend schedule
    of an option is well formed: as many amounts as dates, every amount
    5.0, the dates strictly increasing; and it is empty exactly when the
    exercise date is not after [today + 3*Months]. *)
Theorem dividend_schedule_well_formed (E : Externals) (today exDate : Date)
    (dates : list Date) (amounts : list Real) :
  (forall (d : Date) (n : Integer), (0 < n)%Z -> (d < plusMonths E d n)%Z) ->
  dividendSchedule E today exDate = Some (dates, amounts) ->
  List.length amounts = List.length dates /\
  (forall a, In a amounts -> a = 5.0) /\
  (forall i j, (i < j < List.length dates)%nat ->
     (List.nth i dates 0 < List.nth j dates 0)%Z) /\
  (dates = [] <-> (exDate <= plusMonths E today 3%Z)%Z).
Proof.
  intros Hlater Hrun.
  destruct (dividendLoop_lengths E exDate _ _ _ _ Hrun) as [Hlen Hfive].
  destruct (dividendSchedule_spec E today exDate Hlater)
    as (n & Hspec & Hbefore & Hafter).
  rewrite Hrun in Hspec. injection Hspec as Hdates _.
  split; [exact Hlen|]. split; [exact Hfive|]. split.
  - intros i j Hij. subst dates.
    rewrite List.length_map, List.length_seq in Hij.
    rewrite !(List.nth_indep _ 0%Z (scheduledDate E today 0)),
            !List.map_nth, !List.seq_nth
      by (rewrite ?List.length_map, ?List.length_seq; lia).
    cbn [Nat.add]. unfold scheduledDate.
    apply (nthDate_lt E Hlater). lia.
  - change (plusMonths E today 3%Z) with (scheduledDate E today 0).
    split.
    + intros Hempty. apply Hafter.
      subst dates. destruct n; [lia|discriminate Hempty].
    + intros Hshort. subst dates. destruct n as [|n]; [reflexivity|].
      specialize (Hbefore 0%nat ltac:(lia)). lia.
Qed.

Lemma dividend_schedule_well_formed_witness :
  let dates := [38090%Z; 38270%Z] in
  let amounts := [5.0; 5.0] in
  List.length amounts = List.length dates /\
  (forall a, In a amounts -> a = 5.0) /\
  (forall i j, (i < j < List.length dates)%nat ->
     (List.nth i dates 0 < List.nth j dates 0)%Z) /\
  (dates = [] <->
   (38360 <= plusMonths (Example.env (Example.total Example.smooth))
                        38000 3)%Z).
Proof.
  apply (dividend_schedule_well_formed
           (Example.env (Example.total Example.smooth)) 38000%Z 38360%Z).
  - intros d n Hn. cbn. unfold Example.thirtyDayMonths. lia.
  - reflexivity.
Defined.

(** ** Termination *)

(** A loop runs out of its bound only if one of its iterations does. *)
Lemma forM__diverges (A : Type) (body : A -> M unit) (l : list A) :
  (forall x s, fst (body x s) <> Diverges) ->
  forall s, fst (forM_ l body s) <> Diverges.
Proof.
  intros Hbody. induction l as [|x l IH]; intros s.
  - discriminate.
  - rewrite forM__cons. specialize (Hbody x s).
    destruct (body x s) as [[[]|f| |] s1]; cbn [fst] in *;
      try discriminate; [apply IH|exact Hbody].
Qed.

Lemma compare_ends (E : Externals) (o : DividendVanillaOption)
    (u : Real) (q r : Rate) (today : Date) (v : Volatility) (s : TestState) :
  fst (compare E o u q r today v s) <> Diverges.
Proof.
  unfold compare, calculated_keys, bind.
  apply forM__diverges. intros greek s0.
  unfold compareGreek, expected_index, calculated_index, tolerance_index,
         bind, REPORT_FAILURE, BOOST_FAIL, ret.
  destruct (StdMap.index greek (expected s0)) as [expct e']; simpl.
  destruct (StdMap.index greek (calculated s0)) as [calcl c']; simpl.
  destruct (StdMap.index greek (tolerance s0)) as [tol t']; simpl.
  destruct (tol <? relativeError E expct calcl u); discriminate.
Qed.

Lemma gridPoint_terminates (E : Externals) (o : DividendVanillaOption)
    (today : Date) (u : Real) (q r : Rate) (v : Volatility) (s : TestState) :
  fst (gridPoint E o today u q r v s) <> Diverges.
Proof.
  destruct (gridPoint_ends E o today u q r v s)
    as [(s1 & -> & _)|[(s1 & -> & _)|(s1 & -> & _)]];
    try discriminate.
  apply compare_ends.
Qed.

(** X10.  Whatever the engine does, the test terminates as soon as
    adding months moves a date forward: every dividend loop ends, and
    no other loop of the test is unbounded. *)
Theorem test_terminates (E : Externals) :
  (forall (d : Date) (n : Integer), (0 < n)%Z -> (d < plusMonths E d n)%Z) ->
  fst (testGreeks E initialState) <> Diverges.
Proof.
  intros Hlater. rewrite testGreeks_outcome, testBody_start.
  apply forM__diverges. intros type s0.
  apply forM__diverges. intros strike_ s1.
  apply forM__diverges. intros length_ s2.
  unfold optionLoopBody.
  destruct (dividendSchedule_spec E (todaysDate E)
              (todaysDate E + length_ * dayCounterBase E)%Z Hlater)
    as (n & -> & _).
  unfold marketLoops.
  apply forM__diverges. intros u s3.
  apply forM__diverges. intros q s4.
  apply forM__diverges. intros r s5.
  apply forM__diverges. intros v s6.
  apply gridPoint_terminates.
Qed.

Lemma test_terminates_witness :
  fst (testGreeks (Example.env Example.fragile) initialState) <> Diverges.
Proof.
  apply (test_terminates (Example.env Example.fragile)).
  intros d n Hn. cbn. unfold Example.thirtyDayMonths. lia.
Defined.

(** ** No carry-over between grid points *)

(** X11.  The maps [calculated] and [expected] live across the loops,
    but nothing a grid point does depends on what earlier grid points
    left in them: from any two stores of the sweep, the same grid point
    ends with the same outcome, the same market data and the same
    [calculated]; and with the same [expected] when it is not skipped. *)
Theorem grid_point_ignores_earlier_grid_points
    (E : Externals) (eng : DividendVanillaOption -> MarketState -> Results)
    (o : DividendVanillaOption) (today : Date)
    (u : Real) (q r : Rate) (v : Volatility) (s1 s2 : TestState) :
  sweeping today s1 ->
  sweeping today s2 ->
  let base := mkMarket u q r v today in
  pricedBy E eng o (gridPointMarkets today base) ->
  let run1 := gridPoint E o today u q r v s1 in
  let run2 := gridPoint E o today u q r v s2 in
  fst run1 = fst run2 /\
  market (snd run1) = market (snd run2) /\
  calculated (snd run1) = calculated (snd run2) /\
  ((u * 1.0e-5 <? value_ (eng o base)) = true ->
   expected (snd run1) = expected (snd run2)).
Proof.
  intros Hs1 Hs2 base Hpriced run1 run2. subst run1 run2.
  rewrite (gridPoint_outcome E eng o today u q r v s1 Hpriced Hs1),
          (gridPoint_outcome E eng o today u q r v s2 Hpriced Hs2).
  destruct Hs1 as (_ & _ & Hc1 & He1). destruct Hs2 as (_ & _ & Hc2 & He2).
  fold base.
  destruct (u * 1.0e-5 <? _); cbn [fst snd];
    unfold afterProbes, afterAnalytic; simpl_store;
    rewrite ?(calculated_filled _ _ _ _ _ _ Hc1),
            ?(calculated_filled _ _ _ _ _ _ Hc2),
            ?(expected_filled _ _ _ _ _ _ He1),
            ?(expected_filled _ _ _ _ _ _ He2);
    repeat split; try reflexivity; discriminate.
Qed.

Lemma grid_point_ignores_earlier_grid_points_witness :
  let E := Example.env (Example.total Example.smooth) in
  let run1 := gridPoint E Example.call100 38000%Z 100 0.1 0.05 0.2
                        Example.fresh in
  let run2 := gridPoint E Example.call100 38000%Z 100 0.1 0.05 0.2
                        afterFirstGridPoint in
  fst run1 = fst run2 /\
  market (snd run1) = market (snd run2) /\
  calculated (snd run1) = calculated (snd run2) /\
  ((100 * 1.0e-5
    <? value_ (Example.smooth Example.call100
                 (mkMarket 100 0.1 0.05 0.2 38000%Z))) = true ->
   expected (snd run1) = expected (snd run2)).
Proof.
  apply (grid_point_ignores_earlier_grid_points
           (Example.env (Example.total Example.smooth)) Example.smooth
           Example.call100 38000%Z 100 0.1 0.05 0.2
           Example.fresh afterFirstGridPoint).
  - unfold sweeping, filled. cbn. auto.
  - unfold sweeping, filled. vm_compute. auto.
  - intros m _. reflexivity.
Defined.
